(** * torchdata.modifiers: predicate-gated proxies over a cacher

    A shallow embedding of [src/torchdata/modifiers.py].  Python objects are
    values of an inductive type, exceptions are the [Raise] branch of
    [result], and the wrapped cacher (an object outside this module, shared
    by reference) lives in an explicit heap that the three proxy methods
    thread through a small state-and-exception monad. *)

From Stdlib Require Import ZArith Zpower List String Bool Lia.
From Stdlib Require Import SpecFloat QArith Qround.
Import ListNotations.
Local Open Scope Z_scope.

(** ** Exceptions and results *)

(** The exceptions the module can surface.  [ValueError] carries the constant
    part of its message; [CacherError] stands for whatever the wrapped cacher
    raises on its own. *)
Inductive exn : Type :=
| TypeError
| ValueError (msg : string)
| IndexError
| OverflowError
| CacherError (code : nat).

Inductive result (A : Type) : Type :=
| Ok (a : A)
| Raise (e : exn).
Arguments Ok {A} a.
Arguments Raise {A} e.

(** ** Classes *)

(** The classes of the module, [Base] from [torchdata._base], and classes a
    user derives from them (the module docstring invites "inheriting from
    Modifier"); every class statement of the file has a single base. *)
Inductive cls : Type :=
| Base
| Modifier
| _Mix
| All
| Any
| _Percent
| UpToPercentage
| FromPercentage
| _Index
| UpToIndex
| FromIndex
| Indices
| Subclass (name : string) (base : cls).

Definition cls_eq_dec (a b : cls) : {a = b} + {a <> b}.
Proof. decide equality. apply string_dec. Defined.

Definition cls_eqb (a b : cls) : bool :=
  if cls_eq_dec a b then true else false.

(** Method resolution order of a class, itself first (the part of it that
    lies inside this module; [Base] is its last entry). *)
Fixpoint mro (c : cls) : list cls :=
  c ::
  match c with
  | Base => []
  | Modifier => [Base]
  | _Mix => [Modifier; Base]
  | All => [_Mix; Modifier; Base]
  | Any => [_Mix; Modifier; Base]
  | _Percent => [Modifier; Base]
  | UpToPercentage => [_Percent; Modifier; Base]
  | FromPercentage => [_Percent; Modifier; Base]
  | _Index => [Modifier; Base]
  | UpToIndex => [_Index; Modifier; Base]
  | FromIndex => [_Index; Modifier; Base]
  | Indices => [Modifier; Base]
  | Subclass _ base => mro base
  end.

Definition issubclass (c d : cls) : bool := existsb (cls_eqb d) (mro c).

(** ** Objects *)

(** Identity of a cacher object: modifiers hold a reference, never a copy. *)
Definition ref : Type := nat.

Set Warnings "-register-all".

(** Instances, one constructor per concrete class, holding the attributes the
    constructors assign.  [mkSubclass name m] is an instance of a user class
    [class name(type(m)): pass]: it inherits every attribute and method. *)
Inductive modifier : Type :=
| mkAll (modifiers : list modifier) (cacher : ref)
| mkAny (modifiers : list modifier) (cacher : ref)
| mkUpToPercentage (threshold : Z) (cacher : ref)
| mkFromPercentage (threshold : Z) (cacher : ref)
| mkUpToIndex (cacher : ref) (index : Z)
| mkFromIndex (cacher : ref) (index : Z)
| mkIndices (cacher : ref) (indices : list Z)
| mkSubclass (name : string) (inherited : modifier).

(** [type(m)] *)
Fixpoint type (m : modifier) : cls :=
  match m with
  | mkAll _ _ => All
  | mkAny _ _ => Any
  | mkUpToPercentage _ _ => UpToPercentage
  | mkFromPercentage _ _ => FromPercentage
  | mkUpToIndex _ _ => UpToIndex
  | mkFromIndex _ _ => FromIndex
  | mkIndices _ _ => Indices
  | mkSubclass name inherited => Subclass name (type inherited)
  end.

Definition isinstance (m : modifier) (c : cls) : bool := issubclass (type m) c.

(** [m.cacher] *)
Fixpoint cacher (m : modifier) : ref :=
  match m with
  | mkAll _ c | mkAny _ c => c
  | mkUpToPercentage _ c | mkFromPercentage _ c => c
  | mkUpToIndex c _ | mkFromIndex c _ => c
  | mkIndices c _ => c
  | mkSubclass _ inherited => cacher inherited
  end.

(** ** Builtins [all] and [any] over a generator

    The generator's items are computed without side effects, so the list of
    their outcomes stands for it; consumption stops at the first exception
    and at the first deciding item. *)
Fixpoint py_all (items : list (result bool)) : result bool :=
  match items with
  | [] => Ok true
  | Raise e :: _ => Raise e
  | Ok false :: _ => Ok false
  | Ok true :: rest => py_all rest
  end.

Fixpoint py_any (items : list (result bool)) : result bool :=
  match items with
  | [] => Ok false
  | Raise e :: _ => Raise e
  | Ok true :: _ => Ok true
  | Ok false :: rest => py_any rest
  end.

(** ** [condition]

    [condition self args] is the bound-method call of [self.condition] on the
    positional arguments [args], dispatched on the class of [self].  Every
    [condition] of the file is declared [def condition(self, index)], so a
    call that does not pass exactly one argument raises [TypeError] before
    any body runs. *)
Fixpoint condition (self : modifier) (args : list Z) : result bool :=
  match args with
  | [index] =>
      match self with
      | mkAll modifiers _ =>
          py_all (map (fun modifier => condition modifier []) modifiers)
      | mkAny modifiers _ =>
          py_any (map (fun modifier => condition modifier []) modifiers)
      | mkUpToPercentage threshold _ => Ok (index <? threshold)
      | mkFromPercentage threshold _ => Ok (index >? threshold)
      | mkUpToIndex _ self_index => Ok (index <? self_index)
      | mkFromIndex _ self_index => Ok (index >? self_index)
      | mkIndices _ indices => Ok (existsb (Z.eqb index) indices)
      | mkSubclass _ inherited => condition inherited [index]
      end
  | _ => Raise TypeError
  end.

(** ** Constructors *)

Definition same_type_message : string :=
  "All checkers have to be of same type".

Module _Mix.
(** [_Mix.__init__(self, *modifiers)]; [self] is the instance under
    construction, given by the constructor of its class. *)
Definition __init__ (self : list modifier -> ref -> modifier)
    (modifiers : list modifier) : result modifier :=
  match modifiers with
  | [] => Raise IndexError
  | first :: _ =>
      let first_type := type first in
      if negb (forallb (fun checker => isinstance checker first_type) modifiers)
      then Raise (ValueError same_type_message)
      else Ok (self modifiers (cacher first))
  end.
End _Mix.

Module All.
Definition new (modifiers : list modifier) : result modifier :=
  _Mix.__init__ mkAll modifiers.
End All.

Module Any.
Definition new (modifiers : list modifier) : result modifier :=
  _Mix.__init__ mkAny modifiers.
End Any.

Module _Index.
Definition __init__ (self : ref -> Z -> modifier) (cacher : ref) (index : Z)
  : result modifier :=
  Ok (self cacher index).
End _Index.

Module UpToIndex.
Definition new (cacher : ref) (index : Z) : result modifier :=
  _Index.__init__ mkUpToIndex cacher index.
End UpToIndex.

Module FromIndex.
Definition new (cacher : ref) (index : Z) : result modifier :=
  _Index.__init__ mkFromIndex cacher index.
End FromIndex.

Module Indices.
Definition new (cacher : ref) (indices : list Z) : result modifier :=
  Ok (mkIndices cacher indices).
End Indices.

(** ** Numbers

    [p] is documented as a float, and the spec's examples also pass the
    integers 0 and 1; [length] is an int.  Floats are IEEE 754 binary64
    values, as specified by [SpecFloat] with 53 bits of precision. *)
Definition prec : Z := 53.
Definition emax : Z := 1024.

Inductive number : Type :=
| PyInt (z : Z)
| PyFloat (f : spec_float).

(** A float object always holds a binary64 value; an int is unbounded. *)
Definition wf_number (x : number) : bool :=
  match x with
  | PyInt _ => true
  | PyFloat f => valid_binary prec emax f
  end.

Definition bind_result {A B : Type} (r : result A) (k : A -> result B)
  : result B :=
  match r with
  | Ok a => k a
  | Raise e => Raise e
  end.

Notation "'let?' x ':=' r 'in' k" := (bind_result r (fun x => k))
  (at level 10, x name, r at level 200, k at level 200).

(** [float(n)] for an int [n]: the nearest binary64 value, ties to even;
    [OverflowError] ("int too large to convert to float") beyond the range. *)
Definition float_of_int (n : Z) : result spec_float :=
  match binary_normalize prec emax n 0 false with
  | S754_infinity _ => Raise OverflowError
  | f => Ok f
  end.

(** The two comparisons of the chained [0 < p < 1].  An int literal and a
    float compare by value; 0 and 1 are themselves binary64 values. *)
Definition zero_lt (p : number) : bool :=
  match p with
  | PyInt z => 0 <? z
  | PyFloat f => SFltb (S754_zero false) f
  end.

Definition lt_one (p : number) : bool :=
  match p with
  | PyInt z => z <? 1
  | PyFloat f => SFltb f (SFone prec emax)
  end.

(** [length * p] with [length] an int: integer product with an int, and with
    a float the binary64 product of [float(length)] and [p]. *)
Definition py_mul (length : Z) (p : number) : result number :=
  match p with
  | PyInt z => Ok (PyInt (length * z))
  | PyFloat f =>
      let? fl := float_of_int length in
      Ok (PyFloat (SFmul prec emax fl f))
  end.

(** [int(x)]: truncation toward zero of a float, which fails on infinities
    and NaN. *)
Definition py_int (x : number) : result Z :=
  match x with
  | PyInt z => Ok z
  | PyFloat (S754_zero _) => Ok 0
  | PyFloat (S754_finite s m e) => Ok (cond_Zopp s (Z.shiftl (Zpos m) e))
  | PyFloat (S754_infinity _) => Raise OverflowError
  | PyFloat S754_nan => Raise (ValueError "cannot convert float NaN to integer")
  end.

Definition percentage_message : string :=
  "Percentage has to be between 0 and 1".

Module _Percent.
Definition __init__ (self : Z -> ref -> modifier) (cacher : ref) (p : number)
    (length : Z) : result modifier :=
  if negb (zero_lt p && lt_one p)
  then Raise (ValueError percentage_message)
  else
    let? product := py_mul length p in
    let? threshold := py_int product in
    Ok (self threshold cacher).
End _Percent.

Module UpToPercentage.
Definition new (cacher : ref) (p : number) (length : Z) : result modifier :=
  _Percent.__init__ mkUpToPercentage cacher p length.
End UpToPercentage.

Module FromPercentage.
Definition new (cacher : ref) (p : number) (length : Z) : result modifier :=
  _Percent.__init__ mkFromPercentage cacher p length.
End FromPercentage.

(** The rational a finite float stands for. *)
Definition SF2Q (f : spec_float) : option Q :=
  match f with
  | S754_zero _ => Some 0%Q
  | S754_finite s m e =>
      Some (match e with
            | Zneg k => Qmake (cond_Zopp s (Zpos m)) (2 ^ k)%positive
            | _ => inject_Z (cond_Zopp s (Zpos m * 2 ^ e))
            end)
  | _ => None
  end.

(** ** The wrapped cacher

    A cacher is an object of another module; all this file asks of it is
    [__contains__], [__getitem__] and [__setitem__].  Each may change the
    cacher's own state and may raise.  Cachers live in a heap addressed by
    reference, and every invocation of one of the three methods is recorded,
    in order, in [calls]. *)
Class Cacher (St V : Type) : Type := {
  cacher__contains__ : St -> Z -> result bool * St;
  cacher__getitem__ : St -> Z -> result V * St;
  cacher__setitem__ : St -> Z -> V -> result unit * St
}.

Inductive call (V : Type) : Type :=
| Contains (index : Z)
| GetItem (index : Z)
| SetItem (index : Z) (data : V).
Arguments Contains {V} index.
Arguments GetItem {V} index.
Arguments SetItem {V} index data.

Record world (St V : Type) : Type := mkWorld {
  heap : ref -> St;
  calls : list (ref * call V)
}.
Arguments mkWorld {St V} heap calls.
Arguments heap {St V} w.
Arguments calls {St V} w.

(** Computations that read and write the world and may raise. *)
Definition M (St V A : Type) : Type := world St V -> result A * world St V.

Definition ret {St V A : Type} (a : A) : M St V A := fun w => (Ok a, w).

Definition bind {St V A B : Type} (m : M St V A) (k : A -> M St V B)
  : M St V B :=
  fun w =>
    match m w with
    | (Ok a, w') => k a w'
    | (Raise e, w') => (Raise e, w')
    end.

(** A computation without effect on the world. *)
Definition pure {St V A : Type} (r : result A) : M St V A := fun w => (r, w).

Notation "x <- m ;; k" := (bind m (fun x => k))
  (at level 61, m at next level, right associativity).

Definition update {St : Type} (h : ref -> St) (c : ref) (s : St) : ref -> St :=
  fun c' => if Nat.eqb c' c then s else h c'.

(** Invoke a method of the cacher at [c], recording the call. *)
Definition invoke {St V A : Type} (c : ref) (what : call V)
    (method : St -> result A * St) : M St V A :=
  fun w =>
    let (r, s) := method (heap w c) in
    (r, mkWorld (update (heap w) c s) (calls w ++ [(c, what)])).

Section CacherOps.
Context {St V : Type} `{Cacher St V}.

(** [index in c] *)
Definition contains (c : ref) (index : Z) : M St V bool :=
  invoke c (Contains index) (fun s => cacher__contains__ s index).

(** [c[index]] *)
Definition getitem (c : ref) (index : Z) : M St V V :=
  invoke c (GetItem index) (fun s => cacher__getitem__ s index).

(** [c[index] = data] *)
Definition setitem (c : ref) (index : Z) (data : V) : M St V unit :=
  invoke c (SetItem index data) (fun s => cacher__setitem__ s index data).
End CacherOps.

(** ** The proxy methods of [Modifier] *)

Module Modifier.
Definition __contains__ {St V : Type} `{Cacher St V}
    (self : modifier) (index : Z) : M St V bool :=
  c <- pure (condition self [index]) ;;
  if c then contains (cacher self) index else ret false.

Definition __setitem__ {St V : Type} `{Cacher St V}
    (self : modifier) (index : Z) (data : V) : M St V unit :=
  c <- pure (condition self [index]) ;;
  if c then setitem (cacher self) index data else ret tt.

Definition __getitem__ {St V : Type} `{Cacher St V}
    (self : modifier) (index : Z) : M St V V :=
  getitem (cacher self) index.

Definition __or__ (self other : modifier) : result modifier :=
  Any.new [self; other].

Definition __and__ (self other : modifier) : result modifier :=
  All.new [self; other].
End Modifier.

(** ** A call-counting stub cacher

    An in-memory store (a dictionary as an association list, newest binding
    first), used to run the proxies on concrete inputs. *)
Definition stub : Type := list (Z * nat).

Fixpoint stub_find (s : stub) (index : Z) : option nat :=
  match s with
  | [] => None
  | (k, v) :: rest => if k =? index then Some v else stub_find rest index
  end.

#[export] Instance stub_cacher : Cacher stub nat := {
  cacher__contains__ s index :=
    (Ok (match stub_find s index with Some _ => true | None => false end), s);
  cacher__getitem__ s index :=
    (match stub_find s index with
     | Some v => Ok v
     | None => Raise (CacherError 0)
     end, s);
  cacher__setitem__ s index data := (Ok tt, (index, data) :: s)
}.

(** A world whose cachers are all empty and in which nothing was called. *)
Definition fresh : world stub nat := mkWorld (fun _ => []) [].

(** Some binary64 constants: 0.5, and the float nearest to one third. *)
Definition half : spec_float := S754_finite false 4503599627370496 (-53).
Definition third : spec_float := S754_finite false 6004799503160661 (-54).

(** ** What the spec asks of the composites

    The spec's wording of [All.condition] and [Any.condition]: the
    conjunction, respectively disjunction, of [child.condition(index)] over
    the children.  Only used to compare with [condition]. *)
Definition spec_All_condition (modifiers : list modifier) (index : Z)
  : result bool :=
  py_all (map (fun child => condition child [index]) modifiers).

Definition spec_Any_condition (modifiers : list modifier) (index : Z)
  : result bool :=
  py_any (map (fun child => condition child [index]) modifiers).

(** An instance of a user class derived from [UpToIndex]. *)
Definition first_ten : modifier := mkSubclass "FirstTen" (mkUpToIndex 0%nat 10).

(** [float(1000)] *)
Definition thousand : spec_float := S754_finite false 8796093022208000 (-43).

(** "[p] is strictly between 0 and 1", read on the number [p] stands for. *)
Definition strictly_between (p : number) : Prop :=
  match p with
  | PyInt z => 0 < z < 1
  | PyFloat f =>
      match SF2Q f with
      | Some q => (0 < q /\ q < 1)%Q
      | None => False
      end
  end.

(** An instance of one of the module's own concrete classes, as opposed to
    an instance of a class a user derived from one of them. *)
Definition module_instance (m : modifier) : bool :=
  match m with
  | mkSubclass _ _ => false
  | _ => true
  end.

(** The two statements [m[index] = data] and [index in m], in sequence. *)
Definition set_then_contains {St V : Type} `{Cacher St V}
    (m : modifier) (index : Z) (data : V) : M St V bool :=
  _ <- Modifier.__setitem__ m index data ;;
  Modifier.__contains__ m index.

(** * Properties *)

(** ** Range modifiers *)

Lemma condition_arity (m : modifier) : condition m [] = Raise TypeError.
Proof. destruct m; reflexivity. Qed.

(** C6: [UpToIndex(cacher, T).condition(i)] holds exactly when [i < T] and
    [FromIndex(cacher, T).condition(i)] exactly when [i > T], for every
    integer threshold and index; at [i = T] both answer [False]. *)
Theorem index_conditions_strict (c : ref) (T i : Z) :
  exists up from : modifier,
    UpToIndex.new c T = Ok up /\ FromIndex.new c T = Ok from /\
    (exists b, condition up [i] = Ok b /\ (b = true <-> i < T)) /\
    (exists b, condition from [i] = Ok b /\ (b = true <-> i > T)) /\
    condition up [T] = Ok false /\ condition from [T] = Ok false.
Proof.
  exists (mkUpToIndex c T), (mkFromIndex c T); cbn.
  repeat split; try reflexivity.
  - exists (i <? T); split; [reflexivity | apply Z.ltb_lt].
  - exists (i >? T); split; [reflexivity |].
    rewrite Z.gtb_ltb, Z.ltb_lt; lia.
  - now rewrite Z.ltb_irrefl.
  - now rewrite Z.gtb_ltb, Z.ltb_irrefl.
Qed.

(** ** Composites *)

Lemma py_all_raise {A : Type} (f : A -> result bool) (e : exn) (x : A)
    (rest : list A) :
  f x = Raise e -> py_all (map f (x :: rest)) = Raise e.
Proof. intros E; cbn; now rewrite E. Qed.

Lemma py_any_raise {A : Type} (f : A -> result bool) (e : exn) (x : A)
    (rest : list A) :
  f x = Raise e -> py_any (map f (x :: rest)) = Raise e.
Proof. intros E; cbn; now rewrite E. Qed.

(** Whatever the children and the index, a composite with at least one child
    fails in [condition]: the first child is called without its argument. *)
Lemma composite_condition_raises (first : modifier) (rest : list modifier)
    (c : ref) (i : Z) :
  condition (mkAll (first :: rest) c) [i] = Raise TypeError /\
  condition (mkAny (first :: rest) c) [i] = Raise TypeError.
Proof.
  split; cbn [condition].
  - apply py_all_raise, condition_arity.
  - apply py_any_raise, condition_arity.
Qed.

(** C1, at the spec's own example: [All(UpToIndex(c,100), UpToIndex(c,50))]
    is built without error, the conjunction of its children's conditions is
    [True] at 30 and [False] at 75, and [condition] raises [TypeError] at
    both instead of returning them; likewise [Any] over the same children,
    whose disjunction is [True] at 75. *)
Theorem all_condition_example_raises (c : ref) :
  exists m m' : modifier,
    All.new [mkUpToIndex c 100; mkUpToIndex c 50] = Ok m /\
    spec_All_condition [mkUpToIndex c 100; mkUpToIndex c 50] 30 = Ok true /\
    spec_All_condition [mkUpToIndex c 100; mkUpToIndex c 50] 75 = Ok false /\
    condition m [30] = Raise TypeError /\
    condition m [75] = Raise TypeError /\
    Any.new [mkUpToIndex c 100; mkUpToIndex c 50] = Ok m' /\
    spec_Any_condition [mkUpToIndex c 100; mkUpToIndex c 50] 75 = Ok true /\
    condition m' [75] = Raise TypeError.
Proof.
  do 2 eexists; repeat split; reflexivity.
Qed.

Lemma cls_eqb_refl (c : cls) : cls_eqb c c = true.
Proof. unfold cls_eqb; destruct (cls_eq_dec c c); congruence. Qed.

Lemma issubclass_refl (c : cls) : issubclass c c = true.
Proof.
  unfold issubclass; destruct c; cbn [mro existsb];
    now rewrite cls_eqb_refl.
Qed.

Lemma isinstance_type (m : modifier) : isinstance m (type m) = true.
Proof. apply issubclass_refl. Qed.

(** The outcome of [_Mix.__init__] on a non-empty argument list is decided by
    [isinstance] against the class of the first argument. *)
Lemma mix_init_cons (self : list modifier -> ref -> modifier)
    (first : modifier) (rest : list modifier) :
  _Mix.__init__ self (first :: rest) =
  if forallb (fun m => isinstance m (type first)) rest
  then Ok (self (first :: rest) (cacher first))
  else Raise (ValueError same_type_message).
Proof.
  unfold _Mix.__init__; cbn [forallb].
  rewrite isinstance_type; cbn [andb].
  now destruct (forallb _ rest).
Qed.

Lemma forallb_isinstance_true (first : modifier) (rest : list modifier) :
  forallb (fun m => isinstance m (type first)) rest = true <->
  forall m, In m (first :: rest) -> isinstance m (type first) = true.
Proof.
  rewrite forallb_forall; split.
  - intros Hr m [<- | Hin]; [apply isinstance_type | now apply Hr].
  - intros Ha m Hin; apply Ha; now right.
Qed.

Lemma forallb_isinstance_false (first : modifier) (rest : list modifier) :
  forallb (fun m => isinstance m (type first)) rest = false <->
  exists m, In m (first :: rest) /\ isinstance m (type first) = false.
Proof.
  split.
  - induction rest as [| x rest IH]; cbn [forallb]; [discriminate |].
    destruct (isinstance x (type first)) eqn:Ex; cbn [andb].
    + intros Hf; destruct (IH Hf) as (m & [<- | Hin] & Hm).
      * exists first; split; [now left | exact Hm].
      * exists m; split; [right; now right | exact Hm].
    + intros _; exists x; split; [right; now left | exact Ex].
  - intros (m & Hin & Hm).
    apply Bool.not_true_iff_false; intros Ht.
    pose proof (proj1 (forallb_isinstance_true first rest) Ht m Hin) as Hm'.
    rewrite Hm' in Hm; discriminate.
Qed.

(** C3, as the code has it: on a non-empty list the constructors of [All]
    and [Any] raise the validation error exactly when some element is not an
    instance (in the sense of [isinstance], so subclasses pass) of the first
    element's class, and otherwise return a composite over the same list
    whose [cacher] is the first child's; elements all of the first's class
    are accepted, and [All(UpToIndex(c,50), FromIndex(c,100))] raises. *)
Theorem mix_init_validation (first : modifier) (rest : list modifier) :
  let ms := first :: rest in
  ((exists m, In m ms /\ isinstance m (type first) = false) <->
   All.new ms = Raise (ValueError same_type_message)) /\
  ((forall m, In m ms -> isinstance m (type first) = true) <->
   All.new ms = Ok (mkAll ms (cacher first))) /\
  ((exists m, In m ms /\ isinstance m (type first) = false) <->
   Any.new ms = Raise (ValueError same_type_message)) /\
  ((forall m, In m ms -> isinstance m (type first) = true) <->
   Any.new ms = Ok (mkAny ms (cacher first))) /\
  cacher (mkAll ms (cacher first)) = cacher first /\
  cacher (mkAny ms (cacher first)) = cacher first /\
  ((forall m, In m ms -> type m = type first) ->
   All.new ms = Ok (mkAll ms (cacher first)) /\
   Any.new ms = Ok (mkAny ms (cacher first))) /\
  (forall c, All.new [mkUpToIndex c 50; mkFromIndex c 100]
             = Raise (ValueError same_type_message)).
Proof.
  intros ms; unfold All.new, Any.new, ms; rewrite !mix_init_cons.
  rewrite <- forallb_isinstance_true, <- forallb_isinstance_false.
  assert (Hsame : (forall m, In m (first :: rest) -> type m = type first) ->
                  forallb (fun m => isinstance m (type first)) rest = true).
  { intros Hty; apply (proj2 (forallb_isinstance_true first rest)).
    intros m Hin.
    unfold isinstance; rewrite (Hty m Hin); apply issubclass_refl. }
  destruct (forallb (fun m => isinstance m (type first)) rest) eqn:E.
  - repeat split; intros; try reflexivity; discriminate.
  - repeat split; intros; try reflexivity; try discriminate;
      match goal with
      | Hty : forall m, In m _ -> type m = _ |- _ =>
          apply Hsame in Hty; discriminate
      end.
Qed.

(** C3 as the spec words it fails: the second element's concrete class
    differs from the first's, and the composite is built all the same. *)
Lemma mix_init_accepts_subclass :
  type first_ten <> type (mkUpToIndex 0%nat 50) /\
  All.new [mkUpToIndex 0%nat 50; first_ten]
  = Ok (mkAll [mkUpToIndex 0%nat 50; first_ten] 0%nat).
Proof. split; [discriminate | reflexivity]. Qed.

(** C9: the check is [isinstance] against the first child's class, so it
    depends on the order of the children.  When every later child is an
    instance of a proper subclass of the class of [base_obj], the composite
    over [base_obj :: subs] is built; every list that starts with one of
    those subclass instances and holds [base_obj] further on is refused, and
    so is, in particular, the same list of children in the reverse order. *)
Theorem mix_validation_order_dependent
    (self : list modifier -> ref -> modifier) (base_obj : modifier)
    (subs : list modifier) :
  (forall s, In s subs -> issubclass (type s) (type base_obj) = true) ->
  (forall s, In s subs -> issubclass (type base_obj) (type s) = false) ->
  _Mix.__init__ self (base_obj :: subs)
  = Ok (self (base_obj :: subs) (cacher base_obj)) /\
  (forall (sub : modifier) (others : list modifier),
      In sub subs -> In base_obj others ->
      _Mix.__init__ self (sub :: others)
      = Raise (ValueError same_type_message)) /\
  (subs <> [] ->
   _Mix.__init__ self (rev (base_obj :: subs))
   = Raise (ValueError same_type_message)).
Proof.
  intros Hsub Hnot.
  assert (Hrej : forall (sub : modifier) (others : list modifier),
             In sub subs -> In base_obj others ->
             _Mix.__init__ self (sub :: others)
             = Raise (ValueError same_type_message)).
  { intros sub others Hin Hbase. rewrite mix_init_cons.
    assert (Hf : forallb (fun m => isinstance m (type sub)) others = false).
    { apply (proj2 (forallb_isinstance_false sub others)).
      exists base_obj; split; [now right | exact (Hnot sub Hin)]. }
    now rewrite Hf. }
  split; [| split; [exact Hrej |]].
  - rewrite mix_init_cons.
    assert (Ht : forallb (fun m => isinstance m (type base_obj)) subs = true).
    { apply forallb_forall; intros s Hin; exact (Hsub s Hin). }
    now rewrite Ht.
  - intros Hne. cbn [rev].
    destruct (rev subs) as [| sub others] eqn:Er.
    + exfalso; apply Hne.
      rewrite <- (rev_involutive subs), Er; reflexivity.
    + cbn [app]. apply Hrej.
      * apply in_rev; rewrite Er; now left.
      * apply in_or_app; right; now left.
Qed.

Lemma mix_validation_order_dependent_witness :
  ((forall s, In s [first_ten; first_ten] ->
              issubclass (type s) (type (mkUpToIndex 0%nat 50)) = true) /\
   (forall s, In s [first_ten; first_ten] ->
              issubclass (type (mkUpToIndex 0%nat 50)) (type s) = false)) /\
  _Mix.__init__ mkAll [mkUpToIndex 0%nat 50; first_ten; first_ten]
  = Ok (mkAll [mkUpToIndex 0%nat 50; first_ten; first_ten] 0%nat) /\
  _Mix.__init__ mkAll [first_ten; first_ten; mkUpToIndex 0%nat 50]
  = Raise (ValueError same_type_message).
Proof.
  assert (H1 : forall s, In s [first_ten; first_ten] ->
                 issubclass (type s) (type (mkUpToIndex 0%nat 50)) = true).
  { intros s [<- | [<- | []]]; reflexivity. }
  assert (H2 : forall s, In s [first_ten; first_ten] ->
                 issubclass (type (mkUpToIndex 0%nat 50)) (type s) = false).
  { intros s [<- | [<- | []]]; reflexivity. }
  split; [split; [exact H1 | exact H2] |].
  pose proof (mix_validation_order_dependent mkAll (mkUpToIndex 0%nat 50)
                [first_ten; first_ten] H1 H2) as (Hok & Hrej & _).
  split; [exact Hok |].
  exact (Hrej first_ten [first_ten; mkUpToIndex 0%nat 50]
           (or_introl eq_refl) (or_intror (or_introl eq_refl))).
Defined.

(** C10: with no modifier at all, the constructors of [All] and [Any] fail
    with [IndexError], raised by [modifiers[0]]; the same-type check is not
    reached, so no [ValueError] is raised. *)
Theorem mix_init_empty (self : list modifier -> ref -> modifier) :
  _Mix.__init__ self [] = Raise IndexError /\
  All.new [] = Raise IndexError /\
  Any.new [] = Raise IndexError /\
  (forall msg, _Mix.__init__ self [] <> Raise (ValueError msg)).
Proof. repeat split; discriminate. Qed.

(** ** The proxies *)

Section Proxies.
Context {St V : Type} `{Cacher St V}.

Lemma invoke_calls {A : Type} (c : ref) (what : call V)
    (method : St -> result A * St) (w : world St V) :
  calls (snd (invoke c what method w)) = calls w ++ [(c, what)] /\
  fst (invoke c what method w) = fst (method (heap w c)).
Proof. unfold invoke; now destruct (method (heap w c)). Qed.

Lemma bind_pure_ok {A B : Type} (a : A) (k : A -> M St V B) (w : world St V) :
  bind (pure (Ok a)) k w = k a w.
Proof. reflexivity. Qed.

Lemma bind_pure_raise {A B : Type} (e : exn) (k : A -> M St V B)
    (w : world St V) :
  bind (pure (Raise e)) k w = (Raise e, w).
Proof. reflexivity. Qed.
End Proxies.

(** C2: when [condition(i)] answers [c], [m.contains(i)] is the cacher's own
    [contains] if [c] is true and is [False], in an unchanged world, if [c]
    is false; its value is [c and cacher.contains(i)]; the cacher is invoked
    once in the first case and not at all in the second. *)
Theorem contains_gated {St V : Type} `{Cacher St V}
    (m : modifier) (i : Z) (w : world St V) (c : bool) :
  condition m [i] = Ok c ->
  Modifier.__contains__ m i w
  = (if c then contains (cacher m) i w else (Ok false, w)) /\
  (forall hit : bool,
      fst (cacher__contains__ (heap w (cacher m)) i) = Ok hit ->
      fst (Modifier.__contains__ m i w) = Ok (c && hit)) /\
  calls (snd (Modifier.__contains__ m i w))
  = calls w ++ (if c then [(cacher m, Contains i)] else []) /\
  (c = false -> snd (Modifier.__contains__ m i w) = w).
Proof.
  intros Hc; unfold Modifier.__contains__; rewrite Hc, bind_pure_ok.
  destruct c; cbn [andb].
  - unfold contains.
    destruct (invoke_calls (cacher m) (Contains i)
                (fun s => cacher__contains__ s i) w) as [Hcalls Hfst].
    repeat split; try assumption; try discriminate.
    intros hit Hhit; now rewrite Hfst.
  - repeat split; cbn; [now rewrite app_nil_r].
Qed.

Lemma contains_gated_witness :
  condition (mkUpToIndex 0%nat 7) [9] = Ok false /\
  Modifier.__contains__ (mkUpToIndex 0%nat 7) 9 fresh = (Ok false, fresh).
Proof.
  split; [reflexivity |].
  exact (proj1 (contains_gated (mkUpToIndex 0%nat 7) 9 fresh false eq_refl)).
Defined.

(** When [condition] itself raises, as it does on every composite, the
    exception leaves [contains] and [set] before the cacher is reached. *)
Lemma proxies_propagate {St V : Type} `{Cacher St V}
    (m : modifier) (i : Z) (v : V) (w : world St V) (e : exn) :
  condition m [i] = Raise e ->
  Modifier.__contains__ m i w = (Raise e, w) /\
  Modifier.__setitem__ m i v w = (Raise e, w).
Proof.
  intros Hc; unfold Modifier.__contains__, Modifier.__setitem__.
  now rewrite Hc, !bind_pure_raise.
Qed.

(** C4: when [condition(i)] answers [c], [m.set(i, v)] is the cacher's own
    [set] if [c] is true; if [c] is false it returns [None] without raising,
    leaves the world (every cacher's state) as it was and invokes nothing. *)
Theorem setitem_gated {St V : Type} `{Cacher St V}
    (m : modifier) (i : Z) (v : V) (w : world St V) (c : bool) :
  condition m [i] = Ok c ->
  Modifier.__setitem__ m i v w
  = (if c then setitem (cacher m) i v w else (Ok tt, w)) /\
  calls (snd (Modifier.__setitem__ m i v w))
  = calls w ++ (if c then [(cacher m, SetItem i v)] else []) /\
  (c = true ->
   fst (Modifier.__setitem__ m i v w)
   = fst (cacher__setitem__ (heap w (cacher m)) i v) /\
   heap (snd (Modifier.__setitem__ m i v w)) (cacher m)
   = snd (cacher__setitem__ (heap w (cacher m)) i v)) /\
  (c = false -> Modifier.__setitem__ m i v w = (Ok tt, w)).
Proof.
  intros Hc; unfold Modifier.__setitem__; rewrite Hc, bind_pure_ok.
  destruct c.
  - unfold setitem.
    destruct (invoke_calls (cacher m) (SetItem i v)
                (fun s => cacher__setitem__ s i v) w) as [Hcalls Hfst].
    repeat split; try assumption; try discriminate.
    unfold invoke; destruct (cacher__setitem__ (heap w (cacher m)) i v).
    cbn; unfold update; now rewrite Nat.eqb_refl.
  - repeat split; cbn; try discriminate; now rewrite app_nil_r.
Qed.

Lemma setitem_gated_witness :
  (condition (mkUpToIndex 0%nat 7) [9] = Ok false /\
   condition (mkUpToIndex 0%nat 7) [3] = Ok true) /\
  Modifier.__setitem__ (mkUpToIndex 0%nat 7) 9 42%nat fresh = (Ok tt, fresh) /\
  Modifier.__setitem__ (mkUpToIndex 0%nat 7) 3 42%nat fresh
  = setitem 0%nat 3 42%nat fresh.
Proof.
  split; [split; reflexivity |]. split.
  - exact (proj1 (setitem_gated (mkUpToIndex 0%nat 7) 9 42%nat fresh false
                    eq_refl)).
  - exact (proj1 (setitem_gated (mkUpToIndex 0%nat 7) 3 42%nat fresh true
                    eq_refl)).
Defined.

(** C5: [m.get(i)] is the cacher's own [get], whatever [condition(i)] would
    answer (it is not evaluated): the cacher is invoked once, its result or
    exception is the proxy's, and two modifiers over the same cacher read
    alike. *)
Theorem getitem_unconditional {St V : Type} `{Cacher St V}
    (m : modifier) (i : Z) (w : world St V) :
  Modifier.__getitem__ m i w = getitem (cacher m) i w /\
  fst (Modifier.__getitem__ m i w)
  = fst (cacher__getitem__ (heap w (cacher m)) i) /\
  calls (snd (Modifier.__getitem__ m i w))
  = calls w ++ [(cacher m, GetItem i)] /\
  (forall m' : modifier,
      cacher m' = cacher m ->
      Modifier.__getitem__ m' i w = Modifier.__getitem__ m i w).
Proof.
  unfold Modifier.__getitem__, getitem.
  destruct (invoke_calls (cacher m) (GetItem i)
              (fun s => cacher__getitem__ s i) w) as [Hcalls Hfst].
  repeat split; try assumption.
  intros m' Hm'; now rewrite Hm'.
Qed.

(** ** Binary64 arithmetic

    Facts about [SpecFloat]'s rounding at 53 bits: the mantissa is shifted
    right by a power of two, rounded up by at most one, and renormalised. *)

Lemma digits2_pos_bounds (m : positive) :
  2 ^ (Zpos (digits2_pos m) - 1) <= Zpos m < 2 ^ Zpos (digits2_pos m).
Proof.
  induction m as [m IH | m IH |]; cbn [digits2_pos].
  - rewrite Pos2Z.inj_succ, Z.pow_succ_r by lia.
    replace (Z.succ (Zpos (digits2_pos m)) - 1) with (Z.succ (Zpos (digits2_pos m) - 1)) by lia.
    rewrite Z.pow_succ_r by lia. lia.
  - rewrite Pos2Z.inj_succ, Z.pow_succ_r by lia.
    replace (Z.succ (Zpos (digits2_pos m)) - 1) with (Z.succ (Zpos (digits2_pos m) - 1)) by lia.
    rewrite Z.pow_succ_r by lia. lia.
  - cbn. lia.
Qed.

Lemma Zdigits2_small (m d : Z) : 0 <= m < 2 ^ d -> 0 <= d -> Zdigits2 m <= d.
Proof.
  intros [Hm Hlt] Hd. destruct m as [| p | p]; cbn [Zdigits2]; try lia.
  pose proof (digits2_pos_bounds p) as [Hlo _].
  destruct (Z_le_gt_dec (Zpos (digits2_pos p)) d) as [|Hgt]; [assumption|].
  exfalso.
  assert (2 ^ d <= 2 ^ (Zpos (digits2_pos p) - 1)) by (apply Z.pow_le_mono_r; lia).
  lia.
Qed.

Lemma shr_1_m (r : shr_record) : 0 <= shr_m r -> shr_m (shr_1 r) = shr_m r / 2.
Proof.
  destruct r as [m r s]; cbn [shr_m]; intros Hm.
  rewrite <- Z.div2_div.
  destruct m as [| [p | p |] | p]; try reflexivity; lia.
Qed.

Lemma iter_shr_1_m (n : positive) : forall r : shr_record,
  0 <= shr_m r -> shr_m (SpecFloat.iter_pos shr_1 n r) = shr_m r / 2 ^ Zpos n.
Proof.
  induction n as [n IH | n IH |]; intros r Hr; cbn [SpecFloat.iter_pos].
  - assert (H1 : 0 <= shr_m (shr_1 r)) by (rewrite shr_1_m by assumption; apply Z.div_pos; lia).
    assert (H2 : 0 <= shr_m (SpecFloat.iter_pos shr_1 n (shr_1 r))) by (rewrite IH by assumption; apply Z.div_pos; [assumption | apply Z.pow_pos_nonneg; lia]).
    rewrite IH, IH, shr_1_m by assumption.
    rewrite !Z.div_div by (try apply Z.pow_pos_nonneg; lia).
    f_equal.
    replace (Zpos n~1) with (1 + Zpos n + Zpos n) by lia.
    rewrite !Z.pow_add_r by lia. lia.
  - assert (H2 : 0 <= shr_m (SpecFloat.iter_pos shr_1 n r)) by (rewrite IH by assumption; apply Z.div_pos; [assumption | apply Z.pow_pos_nonneg; lia]).
    rewrite IH, IH by assumption.
    rewrite !Z.div_div by (try apply Z.pow_pos_nonneg; lia).
    f_equal.
    replace (Zpos n~0) with (Zpos n + Zpos n) by lia.
    rewrite !Z.pow_add_r by lia. lia.
  - now rewrite shr_1_m.
Qed.

Lemma shr_m_of_loc (m : Z) (l : location) : shr_m (shr_record_of_loc m l) = m.
Proof. destruct l as [| []]; reflexivity. Qed.

(** [shr_fexp]: the mantissa is divided by the power of two by which the exponent grows. *)
Lemma shr_fexp_spec (prec emax m e : Z) (l : location) :
  0 <= m ->
  let '(r, e') := shr_fexp prec emax m e l in
  e' = Z.max e (fexp prec emax (Zdigits2 m + e)) /\
  shr_m r = m / 2 ^ (e' - e).
Proof.
  intros Hm; unfold shr_fexp, shr.
  destruct (fexp prec emax (Zdigits2 m + e) - e) as [| n | n] eqn:En.
  - split; [lia |].
    now rewrite shr_m_of_loc, Z.sub_diag, Z.pow_0_r, Z.div_1_r.
  - split; [lia |].
    rewrite iter_shr_1_m by (now rewrite shr_m_of_loc).
    rewrite shr_m_of_loc. f_equal. f_equal. lia.
  - split; [lia |].
    now rewrite shr_m_of_loc, Z.sub_diag, Z.pow_0_r, Z.div_1_r.
Qed.

Lemma fexp_binary64 (x : Z) : fexp prec emax x = Z.max (x - 53) (-1074).
Proof. reflexivity. Qed.

Lemma round_nearest_even_bounds (m : Z) (l : location) :
  m <= round_nearest_even m l <= m + 1.
Proof.
  destruct l as [| []]; cbn [round_nearest_even]; try lia.
  destruct (Z.even m); lia.
Qed.

(** What the two steps of [binary_round_aux] compute, on a positive mantissa. *)
Lemma binary_round_aux_steps (s : bool) (M : positive) (E : Z) (l : location) :
  exists e1 m1 m2 e2 m3 : Z,
    e1 = Z.max E (Z.max (Zpos (digits2_pos M) + E - 53) (-1074)) /\
    m1 = Zpos M / 2 ^ (e1 - E) /\
    m1 <= m2 <= m1 + 1 /\
    e2 = Z.max e1 (Z.max (Zdigits2 m2 + e1 - 53) (-1074)) /\
    m3 = m2 / 2 ^ (e2 - e1) /\
    binary_round_aux prec emax s (Zpos M) E l =
    match m3 with
    | Z0 => S754_zero s
    | Zpos m => if e2 <=? 971 then S754_finite s m e2 else S754_infinity s
    | Zneg _ => S754_nan
    end.
Proof.
  unfold binary_round_aux.
  pose proof (shr_fexp_spec prec emax (Zpos M) E l ltac:(lia)) as H1.
  destruct (shr_fexp prec emax (Zpos M) E l) as [r1 e1].
  destruct H1 as [He1 Hm1]; rewrite fexp_binary64 in He1; cbn [Zdigits2] in He1.
  assert (H0 : 0 <= shr_m r1).
  { rewrite Hm1; apply Z.div_pos; [lia | apply Z.pow_pos_nonneg; lia]. }
  pose proof (round_nearest_even_bounds (shr_m r1) (loc_of_shr_record r1)) as Hr.
  set (m2 := round_nearest_even (shr_m r1) (loc_of_shr_record r1)) in *.
  pose proof (shr_fexp_spec prec emax m2 e1 loc_Exact ltac:(lia)) as H2.
  destruct (shr_fexp prec emax m2 e1 loc_Exact) as [r2 e2].
  destruct H2 as [He2 Hm3]; rewrite fexp_binary64 in He2.
  exists e1, (shr_m r1), m2, e2, (shr_m r2).
  repeat split; try assumption; lia.
Qed.

Lemma pow2_53 : 2 ^ 53 = 9007199254740992.
Proof. reflexivity. Qed.

(** The result of rounding is never NaN, keeps the sign, and when finite has
    at most 53 bits of mantissa and an exponent of at most 971. *)
Lemma binary_round_aux_cases (s : bool) (M : positive) (E : Z) (l : location) :
  match binary_round_aux prec emax s (Zpos M) E l with
  | S754_zero s' => s' = s
  | S754_infinity s' => s' = s
  | S754_finite s' m e => s' = s /\ Zpos m < 2 ^ 53 /\ e <= 971
  | S754_nan => False
  end.
Proof.
  destruct (binary_round_aux_steps s M E l)
    as (e1 & m1 & m2 & e2 & m3 & He1 & Hm1 & Hm2 & He2 & Hm3 & ->).
  pose proof (digits2_pos_bounds M) as [_ HM].
  assert (Hk1 : 0 <= e1 - E) by lia.
  assert (Hm1' : 0 <= m1 < 2 ^ 53).
  { subst m1; split; [apply Z.div_pos; [lia | apply Z.pow_pos_nonneg; lia] |].
    apply Z.div_lt_upper_bound; [apply Z.pow_pos_nonneg; lia |].
    rewrite <- Z.pow_add_r by lia.
    eapply Z.lt_le_trans; [exact HM | apply Z.pow_le_mono_r; lia]. }
  assert (Hm3' : 0 <= m3 < 2 ^ 53).
  { assert (Hk2 : 0 <= e2 - e1) by lia.
    subst m3; split; [apply Z.div_pos; [lia | apply Z.pow_pos_nonneg; lia] |].
    destruct (Z.eq_dec m2 (2 ^ 53)) as [-> | Hne].
    - assert (Hd : Zdigits2 (2 ^ 53) = 54) by reflexivity.
      rewrite Hd in He2.
      apply Z.div_lt; [reflexivity | apply Z.pow_gt_1; lia].
    - apply Z.le_lt_trans with m2; [| lia].
      apply Z.div_le_upper_bound; [apply Z.pow_pos_nonneg; lia |].
      assert (0 < 2 ^ (e2 - e1)) by (apply Z.pow_pos_nonneg; lia). nia. }
  destruct m3 as [| m | m]; [reflexivity | | lia].
  destruct (e2 <=? 971) eqn:Ele; [| reflexivity].
  apply Z.leb_le in Ele; repeat split; [apply Hm3' | exact Ele].
Qed.

(** Rounding does not overflow when the exact value is below the largest
    finite float, [(2^53 - 1) * 2^971]. *)
Lemma binary_round_aux_no_overflow (s : bool) (M : positive) (E : Z)
    (l : location) :
  E <= 971 -> Zpos M < (2 ^ 53 - 1) * 2 ^ (971 - E) ->
  forall s', binary_round_aux prec emax s (Zpos M) E l <> S754_infinity s'.
Proof.
  intros HE HM s'.
  destruct (binary_round_aux_steps s M E l)
    as (e1 & m1 & m2 & e2 & m3 & He1 & Hm1 & Hm2 & He2 & Hm3 & ->).
  pose proof (digits2_pos_bounds M) as [HMlo HMhi].
  set (d := Zpos (digits2_pos M)) in *.
  assert (Hd : d + E <= 1024).
  { assert (Hlt : 2 ^ (d - 1) < 2 ^ (1024 - E)).
    { eapply Z.le_lt_trans; [exact HMlo |].
      eapply Z.lt_le_trans; [exact HM |].
      replace (1024 - E) with (53 + (971 - E)) by lia.
      rewrite Z.pow_add_r by lia.
      assert (0 < 2 ^ (971 - E)) by (apply Z.pow_pos_nonneg; lia). nia. }
    apply Z.pow_lt_mono_r_iff in Hlt; lia. }
  assert (He1' : -1074 <= e1 <= 971) by lia.
  assert (Hm1' : 0 <= m1 < 2 ^ 53).
  { subst m1; split; [apply Z.div_pos; [lia | apply Z.pow_pos_nonneg; lia] |].
    apply Z.div_lt_upper_bound; [apply Z.pow_pos_nonneg; lia |].
    rewrite <- Z.pow_add_r by lia.
    eapply Z.lt_le_trans; [exact HMhi | apply Z.pow_le_mono_r; lia]. }
  assert (He2' : e2 <= 971).
  { destruct (Z.eq_dec e1 971) as [E971 | Hne].
    - assert (Hlt : m1 < 2 ^ 53 - 1).
      { subst m1; rewrite E971.
        apply Z.div_lt_upper_bound; [apply Z.pow_pos_nonneg; lia | lia]. }
      assert (Hd2 : Zdigits2 m2 <= 53) by (apply Zdigits2_small; lia).
      lia.
    - assert (Hd2 : Zdigits2 m2 <= 54).
      { apply Zdigits2_small; [| lia].
        change (2 ^ 54) with (2 * 2 ^ 53). lia. }
      lia. }
  destruct m3; try discriminate.
  apply Z.leb_le in He2'; rewrite He2'; discriminate.
Qed.

Lemma SFone_binary64 :
  SFone prec emax = S754_finite false 4503599627370496 (-52).
Proof. reflexivity. Qed.

Lemma canonical_digits (m : positive) (e : Z) :
  bounded prec emax m e = true ->
  Z.max (Zpos (digits2_pos m) + e - 53) (-1074) = e /\ e <= 971.
Proof.
  unfold bounded, canonical_mantissa; rewrite fexp_binary64.
  intros Hb; apply andb_true_iff in Hb as [Hc He].
  apply Z.eqb_eq in Hc; apply Z.leb_le in He.
  split; [exact Hc | exact He].
Qed.

(** [SFltb] on two positive finite floats: exponents first, then
    mantissas. *)
Lemma SFltb_finite (m m' : positive) (e e' : Z) :
  SFltb (S754_finite false m e) (S754_finite false m' e') =
  match e ?= e' with
  | Lt => true
  | Eq => Zpos m <? Zpos m'
  | Gt => false
  end.
Proof.
  unfold SFltb, SFcompare, Z.ltb.
  destruct (e ?= e'); reflexivity.
Qed.

(** For a binary64 value [m * 2^e], the comparison with 1.0 that
    [SFcompare] makes on exponents and mantissas is the comparison of the
    values. *)
Lemma lt_one_finite (m : positive) (e : Z) :
  bounded prec emax m e = true ->
  SFltb (S754_finite false m e) (SFone prec emax) = true <->
  e < 0 /\ Zpos m < 2 ^ (- e).
Proof.
  intros Hb; apply canonical_digits in Hb as [Hc He].
  pose proof (digits2_pos_bounds m) as [Hlo Hhi].
  set (d := Zpos (digits2_pos m)) in *.
  rewrite SFone_binary64, SFltb_finite.
  destruct (e ?= -52) eqn:C.
  - apply Z.compare_eq in C; subst e.
    rewrite Z.ltb_lt. split; [intros Hlt; split; [lia | exact Hlt] | tauto].
  - rewrite Z.compare_lt_iff in C. split; [intros _ | reflexivity].
    split; [lia |].
    eapply Z.lt_le_trans; [exact Hhi | apply Z.pow_le_mono_r; lia].
  - rewrite Z.compare_gt_iff in C. split; [discriminate |].
    intros [Hneg Hlt]; exfalso.
    assert (Hd : d = 53) by lia.
    assert (2 ^ (- e) <= 2 ^ (d - 1)) by (apply Z.pow_le_mono_r; lia).
    lia.
Qed.

(** [float(n)], when it does not overflow, is a zero or a finite float of
    the sign of [n] with at most 53 bits of mantissa. *)
Lemma float_of_int_cases (n : Z) (fl : spec_float) :
  float_of_int n = Ok fl ->
  fl = S754_zero (n <? 0) \/
  exists m e, fl = S754_finite (n <? 0) m e /\ Zpos m < 2 ^ 53 /\ e <= 971.
Proof.
  unfold float_of_int, binary_normalize, binary_round.
  destruct n as [| n | n].
  - intros [= <-]; now left.
  - destruct (shl_align n 0 _) as [mz ez].
    pose proof (binary_round_aux_cases false mz ez loc_Exact) as Hc.
    destruct (binary_round_aux prec emax false (Zpos mz) ez loc_Exact)
      as [s | s | | s m e]; try discriminate; try contradiction.
    + intros [= <-]; subst s; now left.
    + intros [= <-]; destruct Hc as (-> & Hm & He); right.
      exists m, e; split; [reflexivity | split; assumption].
  - destruct (shl_align n 0 _) as [mz ez].
    pose proof (binary_round_aux_cases true mz ez loc_Exact) as Hc.
    destruct (binary_round_aux prec emax true (Zpos mz) ez loc_Exact)
      as [s | s | | s m e]; try discriminate; try contradiction.
    + intros [= <-]; subst s; now left.
    + intros [= <-]; destruct Hc as (-> & Hm & He); right.
      exists m, e; split; [reflexivity | split; assumption].
Qed.

(** The floats strictly between 0 and 1 are the positive finite ones
    [m * 2^e] with [e < 0] and [m < 2^(-e)]. *)
Lemma strictly_between_float (f : spec_float) :
  strictly_between (PyFloat f) <->
  exists m e, f = S754_finite false m e /\ e < 0 /\ Zpos m < 2 ^ (- e).
Proof.
  split.
  - destruct f as [s | s | | s m e]; cbn [strictly_between SF2Q];
      try contradiction.
    + intros [H0 _]; discriminate H0.
    + destruct s.
      * destruct e as [| e | e]; unfold Qlt; cbn [Qnum Qden cond_Zopp inject_Z];
          intros [H0 _]; exfalso; lia.
      * destruct e as [| e | e]; unfold Qlt; cbn [Qnum Qden cond_Zopp inject_Z];
          intros [_ H1].
        -- exfalso; lia.
        -- exfalso.
           assert (0 < 2 ^ Zpos e) by (apply Z.pow_pos_nonneg; lia). nia.
        -- exists m, (Zneg e); split; [reflexivity | split; [lia |]].
           rewrite Pos2Z.inj_pow in H1.
           change (- Zneg e) with (Zpos e). lia.
  - intros (m & e & -> & He & Hm).
    destruct e as [| e | e]; try lia.
    cbn [strictly_between SF2Q cond_Zopp]; unfold Qlt; cbn [Qnum Qden].
    change (- Zneg e) with (Zpos e) in Hm.
    rewrite Pos2Z.inj_pow. split; lia.
Qed.

(** On a binary64 value the guard [0 < p < 1] of the constructor decides
    exactly that. *)
Lemma guard_float (f : spec_float) :
  valid_binary prec emax f = true ->
  zero_lt (PyFloat f) && lt_one (PyFloat f) = true <->
  strictly_between (PyFloat f).
Proof.
  intros Hv; rewrite strictly_between_float.
  destruct f as [s | s | | s m e]; cbn [zero_lt lt_one].
  - split; [discriminate | intros (m & e & [=] & _)].
  - split; [destruct s; discriminate | intros (m & e & [=] & _)].
  - split; [discriminate | intros (m & e & [=] & _)].
  - destruct s.
    + split; [discriminate | intros (m' & e' & [=] & _)].
    + change (SFltb (S754_zero false) (S754_finite false m e)) with true.
      cbn [andb]; rewrite (lt_one_finite m e Hv).
      split.
      * intros [He Hm]; now exists m, e.
      * intros (m' & e' & [= <- <-] & He & Hm); now split.
Qed.

Lemma guard_number (p : number) :
  wf_number p = true ->
  zero_lt p && lt_one p = true <-> strictly_between p.
Proof.
  destruct p as [z | f]; [intros _ | apply guard_float].
  cbn [zero_lt lt_one strictly_between].
  rewrite andb_true_iff, !Z.ltb_lt; tauto.
Qed.

(** The product of a float of at most 53 bits by a float below 1 is a zero
    or a finite float of the same sign: it neither overflows nor is NaN. *)
Lemma SFmul_below_one (sx : bool) (fl : spec_float) (mp : positive) (ep : Z) :
  fl = S754_zero sx \/
  (exists m e, fl = S754_finite sx m e /\ Zpos m < 2 ^ 53 /\ e <= 971) ->
  ep < 0 -> Zpos mp < 2 ^ (- ep) ->
  SFmul prec emax fl (S754_finite false mp ep) = S754_zero sx \/
  exists m e, SFmul prec emax fl (S754_finite false mp ep) = S754_finite sx m e.
Proof.
  intros [-> | (m & e & -> & Hm & He)] Hep Hmp; cbn [SFmul];
    rewrite xorb_false_r; [now left |].
  pose proof (binary_round_aux_cases sx (m * mp) (e + ep) loc_Exact) as Hc.
  assert (Hno : forall s',
             binary_round_aux prec emax sx (Zpos (m * mp)) (e + ep) loc_Exact
             <> S754_infinity s').
  { apply binary_round_aux_no_overflow; [lia |].
    replace (971 - (e + ep)) with (- ep + (971 - e)) by lia.
    rewrite Z.pow_add_r, Pos2Z.inj_mul by lia.
    assert (HC : 0 < 2 ^ (971 - e)) by (apply Z.pow_pos_nonneg; lia).
    assert (HB : 0 < 2 ^ (- ep)) by (apply Z.pow_pos_nonneg; lia).
    rewrite pow2_53 in *.
    assert (H1 : Zpos m * Zpos mp < 9007199254740991 * 2 ^ (- ep)) by nia.
    nia. }
  destruct (binary_round_aux prec emax sx (Zpos (m * mp)) (e + ep) loc_Exact)
    as [s | s | | s m' e'].
  - subst s; now left.
  - exfalso; exact (Hno s eq_refl).
  - contradiction.
  - destruct Hc as (-> & _); right; now exists m', e'.
Qed.

(** [int] of a non-negative finite float is the floor of its value. *)
Lemma py_int_floor (f : spec_float) :
  f = S754_zero false \/ (exists m e, f = S754_finite false m e) ->
  exists q, SF2Q f = Some q /\ py_int (PyFloat f) = Ok (Qfloor q).
Proof.
  intros [-> | (m & e & ->)]; cbn [SF2Q py_int cond_Zopp].
  - exists 0%Q; split; reflexivity.
  - eexists; split; [reflexivity |]. f_equal.
    destruct e as [| e | e].
    + now rewrite Qfloor_Z, Z.shiftl_mul_pow2.
    + now rewrite Qfloor_Z, Z.shiftl_mul_pow2.
    + rewrite Z.shiftl_div_pow2 by lia.
      cbn [Qfloor]. now rewrite Pos2Z.inj_pow.
Qed.

(** ** Percentage modifiers *)

(** Past the guard, and for a [length] that [float] can convert, the
    constructor returns an object whose threshold is the floor of the
    binary64 product. *)
Lemma percent_init_ok (self : Z -> ref -> modifier) (c : ref)
    (p fl : spec_float) (length : Z) :
  valid_binary prec emax p = true ->
  strictly_between (PyFloat p) ->
  float_of_int length = Ok fl ->
  0 <= length ->
  exists q : Q,
    SF2Q (SFmul prec emax fl p) = Some q /\
    _Percent.__init__ self c (PyFloat p) length = Ok (self (Qfloor q) c).
Proof.
  intros Hv Hp Hfl Hlen.
  pose proof (proj2 (guard_float p Hv) Hp) as Hguard.
  apply strictly_between_float in Hp as (mp & ep & -> & Hep & Hmp).
  pose proof (float_of_int_cases length fl Hfl) as Hcases.
  assert (Hsign : (length <? 0) = false) by (apply Z.ltb_ge; exact Hlen).
  rewrite Hsign in Hcases.
  pose proof (SFmul_below_one false fl mp ep Hcases Hep Hmp) as Hmul.
  destruct (py_int_floor (SFmul prec emax fl (S754_finite false mp ep)))
    as (q & Hq & Hint).
  { destruct Hmul as [-> | (m & e & ->)]; [now left | right; now exists m, e]. }
  exists q; split; [exact Hq |].
  unfold _Percent.__init__; rewrite Hguard; cbn [negb].
  unfold py_mul; rewrite Hfl; cbn [bind_result].
  now rewrite Hint.
Qed.

(** C7, as the code has it: for a binary64 [p] strictly between 0 and 1 and
    a [length >= 0] that converts to a float [fl] without overflow, both
    constructors succeed and store, once, the floor of the binary64 product
    [fl * p]; [UpToPercentage.condition(i)] holds exactly when [i] is below
    that threshold and [FromPercentage.condition(i)] exactly when [i] is
    above it.  With [p = 0.5] and [length = 1000] the condition of
    [UpToPercentage] is [True] at 499 and [False] at 500. *)
Theorem percentage_threshold (c : ref) (p fl : spec_float) (length i : Z) :
  valid_binary prec emax p = true ->
  strictly_between (PyFloat p) ->
  0 <= length ->
  float_of_int length = Ok fl ->
  exists (q : Q) (up from : modifier),
    SF2Q (SFmul prec emax fl p) = Some q /\
    UpToPercentage.new c (PyFloat p) length = Ok up /\
    FromPercentage.new c (PyFloat p) length = Ok from /\
    up = mkUpToPercentage (Qfloor q) c /\
    from = mkFromPercentage (Qfloor q) c /\
    (exists b, condition up [i] = Ok b /\ (b = true <-> i < Qfloor q)) /\
    (exists b, condition from [i] = Ok b /\ (b = true <-> i > Qfloor q)) /\
    (let? m := UpToPercentage.new c (PyFloat half) 1000 in condition m [499])
    = Ok true /\
    (let? m := UpToPercentage.new c (PyFloat half) 1000 in condition m [500])
    = Ok false.
Proof.
  intros Hv Hp Hlen Hfl.
  destruct (percent_init_ok mkUpToPercentage c p fl length Hv Hp Hfl Hlen)
    as (q & Hq & Hup).
  destruct (percent_init_ok mkFromPercentage c p fl length Hv Hp Hfl Hlen)
    as (q' & Hq' & Hfrom).
  rewrite Hq in Hq'; injection Hq' as <-.
  exists q, (mkUpToPercentage (Qfloor q) c), (mkFromPercentage (Qfloor q) c).
  repeat split; try assumption; try reflexivity.
  - exists (i <? Qfloor q); split; [reflexivity | apply Z.ltb_lt].
  - exists (i >? Qfloor q); split; [reflexivity |].
    rewrite Z.gtb_ltb, Z.ltb_lt; lia.
Qed.

Lemma percentage_threshold_witness :
  (valid_binary prec emax half = true /\
   strictly_between (PyFloat half) /\
   0 <= 1000 /\
   float_of_int 1000 = Ok thousand) /\
  exists (q : Q) (up from : modifier),
    SF2Q (SFmul prec emax thousand half) = Some q /\
    UpToPercentage.new 0%nat (PyFloat half) 1000 = Ok up /\
    FromPercentage.new 0%nat (PyFloat half) 1000 = Ok from /\
    up = mkUpToPercentage (Qfloor q) 0%nat /\
    from = mkFromPercentage (Qfloor q) 0%nat /\
    (exists b, condition up [499] = Ok b /\ (b = true <-> 499 < Qfloor q)) /\
    (exists b, condition from [499] = Ok b /\ (b = true <-> 499 > Qfloor q)) /\
    (let? m := UpToPercentage.new 0%nat (PyFloat half) 1000 in
     condition m [499]) = Ok true /\
    (let? m := UpToPercentage.new 0%nat (PyFloat half) 1000 in
     condition m [500]) = Ok false.
Proof.
  assert (Hb : strictly_between (PyFloat half)).
  { cbn; unfold Qlt; cbn; split; reflexivity. }
  split; [repeat split; try reflexivity; try apply Hb; discriminate |].
  exact (percentage_threshold 0%nat half thousand 1000 499
           eq_refl Hb ltac:(discriminate) eq_refl).
Defined.

(** C7 as the spec words it fails at a length no float can hold: [p = 0.5]
    is strictly between 0 and 1 and [2^1024 >= 0], yet the constructor
    raises [OverflowError] and no threshold is computed. *)
Lemma percentage_overflow :
  0 <= 2 ^ 1024 /\
  strictly_between (PyFloat half) /\
  UpToPercentage.new 0%nat (PyFloat half) (2 ^ 1024) = Raise OverflowError /\
  FromPercentage.new 0%nat (PyFloat half) (2 ^ 1024) = Raise OverflowError.
Proof.
  split; [discriminate |]. split.
  - cbn; unfold Qlt; cbn; split; reflexivity.
  - split; vm_compute; reflexivity.
Qed.

(** The threshold is the floor of the rounded product, which can exceed the
    floor of the exact one: the float nearest to one third lies below 1/3,
    and three times it rounds to 1.0. *)
Lemma third_of_three :
  UpToPercentage.new 0%nat (PyFloat third) 3 = Ok (mkUpToPercentage 1 0%nat) /\
  SF2Q third = Some (6004799503160661 # 18014398509481984)%Q /\
  (3 * 6004799503160661) / 18014398509481984 = 0.
Proof. repeat split; vm_compute; reflexivity. Qed.

(** C8: for a well-formed [p] (an int, or a binary64 float), the constructors
    of the percentage modifiers raise the validation error exactly when [p]
    is not strictly between 0 and 1; then nothing else can go wrong but the
    conversion of [length] to a float, and no other [ValueError] is raised.
    [p = 0] and [p = 1], as ints or as floats, are rejected. *)
Theorem percentage_validation (self : Z -> ref -> modifier) (c : ref)
    (p : number) (length : Z) :
  wf_number p = true ->
  (_Percent.__init__ self c p length = Raise (ValueError percentage_message)
   <-> ~ strictly_between p) /\
  (strictly_between p ->
   (exists t, _Percent.__init__ self c p length = Ok (self t c)) \/
   (_Percent.__init__ self c p length = Raise OverflowError /\
    float_of_int length = Raise OverflowError)) /\
  UpToPercentage.new c (PyInt 0) 10 = Raise (ValueError percentage_message) /\
  UpToPercentage.new c (PyInt 1) 10 = Raise (ValueError percentage_message) /\
  FromPercentage.new c (PyInt 0) 10 = Raise (ValueError percentage_message) /\
  FromPercentage.new c (PyInt 1) 10 = Raise (ValueError percentage_message) /\
  UpToPercentage.new c (PyFloat (S754_zero false)) 10
  = Raise (ValueError percentage_message) /\
  UpToPercentage.new c (PyFloat (SFone prec emax)) 10
  = Raise (ValueError percentage_message).
Proof.
  intros Hwf.
  assert (Hacc : strictly_between p ->
    (exists t, _Percent.__init__ self c p length = Ok (self t c)) \/
    (_Percent.__init__ self c p length = Raise OverflowError /\
     float_of_int length = Raise OverflowError)).
  { intros Hp.
    pose proof (proj2 (guard_number p Hwf) Hp) as Hguard.
    destruct p as [z | f]; [cbn in Hp; lia |].
    apply strictly_between_float in Hp as (mp & ep & -> & Hep & Hmp).
    unfold _Percent.__init__; rewrite Hguard; cbn [negb]; unfold py_mul.
    destruct (float_of_int length) as [fl | e] eqn:Hfl; cbn [bind_result].
    - left.
      pose proof (SFmul_below_one _ fl mp ep
                    (float_of_int_cases length fl Hfl) Hep Hmp) as Hmul.
      destruct Hmul as [-> | (m & e & ->)]; cbn [py_int bind_result];
        eexists; reflexivity.
    - right. revert Hfl; unfold float_of_int.
      destruct (binary_normalize prec emax length 0 false);
        try discriminate; intros [= <-]; now split. }
  split; [| split; [exact Hacc | repeat split]].
  split.
  - intros Hraise Hp.
    destruct (Hacc Hp) as [(t & Ht) | (Ho & _)]; rewrite Hraise in *;
      discriminate.
  - intros Hnot. unfold _Percent.__init__.
    destruct (zero_lt p && lt_one p) eqn:G; [| reflexivity].
    exfalso; apply Hnot; now apply guard_number.
Qed.

Lemma percentage_validation_witness :
  wf_number (PyFloat half) = true /\
  (_Percent.__init__ mkUpToPercentage 0%nat (PyFloat half) 10
   = Raise (ValueError percentage_message)
   <-> ~ strictly_between (PyFloat half)) /\
  (strictly_between (PyFloat half) ->
   (exists t, _Percent.__init__ mkUpToPercentage 0%nat (PyFloat half) 10
              = Ok (mkUpToPercentage t 0%nat)) \/
   (_Percent.__init__ mkUpToPercentage 0%nat (PyFloat half) 10
    = Raise OverflowError /\
    float_of_int 10 = Raise OverflowError)).
Proof.
  split; [reflexivity |].
  pose proof (percentage_validation mkUpToPercentage 0%nat (PyFloat half) 10
                eq_refl) as (Hiff & Hacc & _).
  split; [exact Hiff | exact Hacc].
Defined.

(** Every length a dataset can have converts: [float] overflows on no
    integer below [2^1023]. *)
Lemma float_of_int_small (n : Z) :
  0 <= n < 2 ^ 1023 -> exists fl, float_of_int n = Ok fl.
Proof.
  intros [Hn Hlt]. unfold float_of_int, binary_normalize, binary_round.
  destruct n as [| n | n]; [eexists; reflexivity | | lia].
  pose proof (digits2_pos_bounds n) as [Hlo Hhi].
  set (d := Zpos (digits2_pos n)) in *.
  assert (Hd : 1 <= d <= 1023).
  { split; [subst d; lia |].
    assert (H : 2 ^ (d - 1) < 2 ^ 1023) by lia.
    apply Z.pow_lt_mono_r_iff in H; lia. }
  rewrite Z.add_0_r, fexp_binary64.
  replace (Z.max (d - 53) (-1074)) with (d - 53) by lia.
  assert (Hbig : 2 ^ 1023 <= (2 ^ 53 - 1) * 2 ^ 971).
  { change (2 ^ 1023) with (2 ^ 52 * 2 ^ 971).
    apply Z.mul_le_mono_nonneg_r; [apply Z.pow_nonneg; lia | discriminate]. }
  assert (Hfin : forall (mz : positive) (ez : Z),
             ez <= 971 -> Zpos mz < (2 ^ 53 - 1) * 2 ^ (971 - ez) ->
             exists fl,
               match binary_round_aux prec emax false (Zpos mz) ez loc_Exact with
               | S754_infinity _ => Raise OverflowError
               | f => Ok f
               end = Ok fl).
  { intros mz ez Hez Hmz.
    pose proof (binary_round_aux_no_overflow false mz ez loc_Exact Hez Hmz) as Hno.
    destruct (binary_round_aux prec emax false (Zpos mz) ez loc_Exact) as [s | s | | s m e];
      try (eexists; reflexivity).
    exfalso; exact (Hno s eq_refl). }
  unfold shl_align.
  destruct (d - 53 - 0) as [| k | k] eqn:Ek.
  - apply Hfin; [lia |]. rewrite Z.sub_0_r. lia.
  - apply Hfin; [lia |]. rewrite Z.sub_0_r. lia.
  - apply Hfin; [lia |].
    change (Pos.iter xO n k) with (shift_pos k n).
    rewrite shift_pos_correct, Z.pow_pos_fold.
    assert (Hk : Zpos k = 53 - d) by lia.
    assert (Hm : 2 ^ Zpos k * Zpos n < 2 ^ 53).
    { replace 53 with (Zpos k + d) by lia.
      rewrite Z.pow_add_r by lia.
      apply Z.mul_lt_mono_pos_l; [apply Z.pow_pos_nonneg; lia | exact Hhi]. }
    eapply Z.lt_le_trans; [exact Hm |].
    replace (971 - (d - 53)) with (1 + (1023 - d)) by lia.
    rewrite Z.pow_add_r by lia.
    assert (0 < 2 ^ (1023 - d)) by (apply Z.pow_pos_nonneg; lia).
    rewrite pow2_53. change (2 ^ 1) with 2. nia.
Qed.

(** * Further properties *)

(** ** [Indices] *)

(** X1: [Indices(cacher, *indices).condition(i)] answers whether [i] occurs
    among the indices given to the constructor; order and repetitions do not
    matter, and with no index at all the answer is always [False]. *)
Theorem indices_condition_membership (c : ref) (indices : list Z) (i : Z) :
  exists m : modifier,
    Indices.new c indices = Ok m /\
    cacher m = c /\
    (condition m [i] = Ok true <-> In i indices) /\
    (condition m [i] = Ok false <-> ~ In i indices) /\
    (forall (c' : ref) (others : list Z),
        (forall x, In x indices <-> In x others) ->
        condition (mkIndices c' others) [i] = condition m [i]) /\
    condition (mkIndices c []) [i] = Ok false.
Proof.
  exists (mkIndices c indices); cbn [Indices.new cacher condition].
  assert (Hin : forall l, existsb (Z.eqb i) l = true <-> In i l).
  { intros l; rewrite existsb_exists; split.
    - intros (x & Hx & Heq); apply Z.eqb_eq in Heq; now subst.
    - intros Hi; exists i; split; [exact Hi | apply Z.eqb_refl]. }
  repeat split; try reflexivity.
  - intros [= Hb]; now apply Hin.
  - intros Hi; f_equal; now apply Hin.
  - intros [= Hb] Hi; apply Hin in Hi; congruence.
  - intros Hn; f_equal; apply Bool.not_true_iff_false; intros Hb.
    apply Hn; now apply Hin.
  - intros c' others Hsame; f_equal.
    destruct (existsb (Z.eqb i) indices) eqn:E.
    + apply Hin; apply Hsame; now apply Hin.
    + apply Bool.not_true_iff_false; intros Hb.
      apply Hin, Hsame, Hin in Hb; congruence.
Qed.

(** ** The operators [|] and [&] *)

Lemma issubclass_of_composite (k : cls) (c : modifier) :
  k = All \/ k = Any ->
  issubclass k (type c) = true -> type c = k.
Proof.
  intros [-> | ->]; destruct c; cbn; try discriminate; reflexivity.
Qed.

(** X2: [a | b] and [a & b] are built exactly when [b] is an instance of the
    class of [a]; the result lists [a] and [b] in that order and takes the
    cacher of [a].  The cacher of [b] plays no part: two modifiers of one
    class are combined whatever they wrap. *)
Theorem operators_or_and (a b : modifier) :
  (isinstance b (type a) = true <->
   Modifier.__or__ a b = Ok (mkAny [a; b] (cacher a))) /\
  (isinstance b (type a) = false <->
   Modifier.__or__ a b = Raise (ValueError same_type_message)) /\
  (isinstance b (type a) = true <->
   Modifier.__and__ a b = Ok (mkAll [a; b] (cacher a))) /\
  (isinstance b (type a) = false <->
   Modifier.__and__ a b = Raise (ValueError same_type_message)) /\
  (type b = type a ->
   Modifier.__or__ a b = Ok (mkAny [a; b] (cacher a)) /\
   Modifier.__and__ a b = Ok (mkAll [a; b] (cacher a))).
Proof.
  unfold Modifier.__or__, Modifier.__and__, Any.new, All.new.
  rewrite !mix_init_cons; cbn [forallb]; rewrite !andb_true_r.
  assert (Hsame : type b = type a -> isinstance b (type a) = true).
  { intros <-; apply isinstance_type. }
  destruct (isinstance b (type a)) eqn:E.
  - repeat split; intros; try reflexivity; discriminate.
  - repeat split; intros; try reflexivity; try discriminate;
      match goal with
      | Hty : type b = type a |- _ => apply Hsame in Hty; discriminate
      end.
Qed.

(** X3: the operators do not chain.  Once [a | b] and [a & b] are built,
    combining either of them with a third modifier [c] that is not itself an
    instance of [Any], respectively [All], raises the validation error, on
    whichever side [c] stands. *)
Theorem operators_do_not_chain (a b c : modifier) :
  isinstance b (type a) = true ->
  isinstance c Any = false ->
  isinstance c All = false ->
  exists m_or m_and : modifier,
    Modifier.__or__ a b = Ok m_or /\
    Modifier.__and__ a b = Ok m_and /\
    Modifier.__or__ m_or c = Raise (ValueError same_type_message) /\
    Modifier.__and__ m_or c = Raise (ValueError same_type_message) /\
    Modifier.__or__ m_and c = Raise (ValueError same_type_message) /\
    Modifier.__and__ m_and c = Raise (ValueError same_type_message) /\
    Modifier.__or__ c m_or = Raise (ValueError same_type_message) /\
    Modifier.__and__ c m_and = Raise (ValueError same_type_message).
Proof.
  intros Hab HcAny HcAll.
  exists (mkAny [a; b] (cacher a)), (mkAll [a; b] (cacher a)).
  unfold Modifier.__or__, Modifier.__and__, Any.new, All.new.
  rewrite !mix_init_cons; cbn [forallb type]; rewrite !andb_true_r, Hab.
  rewrite HcAny, HcAll.
  assert (H1 : isinstance (mkAny [a; b] (cacher a)) (type c) = false).
  { apply Bool.not_true_iff_false; intros Ht.
    apply (issubclass_of_composite Any c (or_intror eq_refl)) in Ht.
    unfold isinstance in HcAny; rewrite Ht, issubclass_refl in HcAny.
    discriminate. }
  assert (H2 : isinstance (mkAll [a; b] (cacher a)) (type c) = false).
  { apply Bool.not_true_iff_false; intros Ht.
    apply (issubclass_of_composite All c (or_introl eq_refl)) in Ht.
    unfold isinstance in HcAll; rewrite Ht, issubclass_refl in HcAll.
    discriminate. }
  rewrite H1, H2. repeat split; reflexivity.
Qed.

Lemma operators_do_not_chain_witness :
  (isinstance (mkUpToIndex 0%nat 50) (type (mkUpToIndex 0%nat 20)) = true /\
   isinstance (mkUpToIndex 0%nat 70) Any = false /\
   isinstance (mkUpToIndex 0%nat 70) All = false) /\
  exists m_or m_and : modifier,
    Modifier.__or__ (mkUpToIndex 0%nat 20) (mkUpToIndex 0%nat 50) = Ok m_or /\
    Modifier.__and__ (mkUpToIndex 0%nat 20) (mkUpToIndex 0%nat 50) = Ok m_and /\
    Modifier.__or__ m_or (mkUpToIndex 0%nat 70)
    = Raise (ValueError same_type_message) /\
    Modifier.__and__ m_or (mkUpToIndex 0%nat 70)
    = Raise (ValueError same_type_message) /\
    Modifier.__or__ m_and (mkUpToIndex 0%nat 70)
    = Raise (ValueError same_type_message) /\
    Modifier.__and__ m_and (mkUpToIndex 0%nat 70)
    = Raise (ValueError same_type_message) /\
    Modifier.__or__ (mkUpToIndex 0%nat 70) m_or
    = Raise (ValueError same_type_message) /\
    Modifier.__and__ (mkUpToIndex 0%nat 70) m_and
    = Raise (ValueError same_type_message).
Proof.
  split; [repeat split; reflexivity |].
  exact (operators_do_not_chain (mkUpToIndex 0%nat 20) (mkUpToIndex 0%nat 50)
           (mkUpToIndex 0%nat 70) eq_refl eq_refl eq_refl).
Defined.

(** ** Composites over the module's own classes *)

Lemma module_isinstance_exact (a b : modifier) :
  module_instance a = true -> module_instance b = true ->
  isinstance b (type a) = true <-> type b = type a.
Proof.
  intros Ha Hb; split; [| intros <-; apply isinstance_type].
  destruct a; try discriminate Ha; destruct b; try discriminate Hb;
    cbn; intros Hi; try reflexivity; discriminate Hi.
Qed.

(** X4: among instances of the module's own concrete classes the check of
    the composites is exact: [All] and [Any] over a non-empty list are built
    when every element has the very class of the first, and raise the
    validation error when one has another class. *)
Theorem mix_init_exact_on_module_classes (first : modifier)
    (rest : list modifier) :
  forallb module_instance (first :: rest) = true ->
  ((forall m, In m (first :: rest) -> type m = type first) <->
   All.new (first :: rest) = Ok (mkAll (first :: rest) (cacher first))) /\
  ((exists m, In m (first :: rest) /\ type m <> type first) <->
   All.new (first :: rest) = Raise (ValueError same_type_message)) /\
  ((forall m, In m (first :: rest) -> type m = type first) <->
   Any.new (first :: rest) = Ok (mkAny (first :: rest) (cacher first))) /\
  ((exists m, In m (first :: rest) /\ type m <> type first) <->
   Any.new (first :: rest) = Raise (ValueError same_type_message)).
Proof.
  intros Hmod; rewrite forallb_forall in Hmod.
  assert (Hfirst : module_instance first = true) by (apply Hmod; now left).
  assert (Hall : (forall m, In m (first :: rest) -> type m = type first) <->
                 forallb (fun m => isinstance m (type first)) rest = true).
  { rewrite forallb_isinstance_true; split; intros Ha m Hin.
    - apply module_isinstance_exact; auto.
    - apply module_isinstance_exact; auto. }
  assert (Hex : (exists m, In m (first :: rest) /\ type m <> type first) <->
                forallb (fun m => isinstance m (type first)) rest = false).
  { rewrite forallb_isinstance_false; split; intros (m & Hin & Hm);
      exists m; (split; [exact Hin |]).
    - apply Bool.not_true_iff_false; intros Ht; apply Hm.
      apply module_isinstance_exact; auto.
    - intros Ht; apply module_isinstance_exact in Ht; auto; congruence. }
  unfold All.new, Any.new; rewrite !mix_init_cons, Hall, Hex.
  destruct (forallb (fun m => isinstance m (type first)) rest);
    repeat split; intros; try reflexivity; discriminate.
Qed.

Lemma mix_init_exact_on_module_classes_witness :
  forallb module_instance [mkUpToIndex 0%nat 50; mkFromIndex 0%nat 100] = true /\
  ((exists m, In m [mkUpToIndex 0%nat 50; mkFromIndex 0%nat 100] /\
              type m <> type (mkUpToIndex 0%nat 50)) <->
   Any.new [mkUpToIndex 0%nat 50; mkFromIndex 0%nat 100]
   = Raise (ValueError same_type_message)).
Proof.
  split; [reflexivity |].
  exact (proj2 (proj2 (proj2
           (mix_init_exact_on_module_classes (mkUpToIndex 0%nat 50)
              [mkFromIndex 0%nat 100] eq_refl)))).
Defined.

(** ** Proxies of a composite *)

Lemma mix_init_shape (self : list modifier -> ref -> modifier)
    (ms : list modifier) (m : modifier) :
  _Mix.__init__ self ms = Ok m ->
  exists first rest, ms = first :: rest /\ m = self ms (cacher first).
Proof.
  destruct ms as [| first rest]; [discriminate |].
  rewrite mix_init_cons.
  destruct (forallb _ rest); [intros [= <-] | discriminate].
  now exists first, rest.
Qed.

(** X5: for a composite built by [All] or [Any] from children whose
    [condition] cannot be called without its index (as is the case of every
    [condition] this module defines), [condition] raises [TypeError] at every
    index, and so do [index in m] and [m[index] = data], before any cacher
    is reached: the world is left as it was. *)
Theorem composite_contains_set_raise {St V : Type} `{Cacher St V}
    (ms : list modifier) (m : modifier) (i : Z) (v : V) (w : world St V) :
  All.new ms = Ok m \/ Any.new ms = Ok m ->
  (forall child, In child ms -> condition child [] = Raise TypeError) ->
  condition m [i] = Raise TypeError /\
  Modifier.__contains__ m i w = (Raise TypeError, w) /\
  Modifier.__setitem__ m i v w = (Raise TypeError, w).
Proof.
  intros Hm Harity.
  assert (Hc : condition m [i] = Raise TypeError).
  { destruct Hm as [Hm | Hm];
      apply mix_init_shape in Hm as (first & rest & -> & ->);
      cbn [condition];
      [apply py_all_raise | apply py_any_raise];
      apply Harity; now left. }
  split; [exact Hc |].
  now apply proxies_propagate.
Qed.

Lemma composite_contains_set_raise_witness :
  ((All.new [mkUpToIndex 0%nat 100; mkUpToIndex 0%nat 50]
    = Ok (mkAll [mkUpToIndex 0%nat 100; mkUpToIndex 0%nat 50] 0%nat) \/
    Any.new [mkUpToIndex 0%nat 100; mkUpToIndex 0%nat 50]
    = Ok (mkAll [mkUpToIndex 0%nat 100; mkUpToIndex 0%nat 50] 0%nat)) /\
   (forall child,
       In child [mkUpToIndex 0%nat 100; mkUpToIndex 0%nat 50] ->
       condition child [] = Raise TypeError)) /\
  condition (mkAll [mkUpToIndex 0%nat 100; mkUpToIndex 0%nat 50] 0%nat) [30]
  = Raise TypeError /\
  Modifier.__contains__
    (mkAll [mkUpToIndex 0%nat 100; mkUpToIndex 0%nat 50] 0%nat) 30 fresh
  = (Raise TypeError, fresh) /\
  Modifier.__setitem__
    (mkAll [mkUpToIndex 0%nat 100; mkUpToIndex 0%nat 50] 0%nat) 30 7%nat fresh
  = (Raise TypeError, fresh).
Proof.
  assert (Harity : forall child,
             In child [mkUpToIndex 0%nat 100; mkUpToIndex 0%nat 50] ->
             condition child [] = Raise TypeError).
  { intros child [<- | [<- | []]]; reflexivity. }
  split; [split; [left; reflexivity | exact Harity] |].
  exact (composite_contains_set_raise
           [mkUpToIndex 0%nat 100; mkUpToIndex 0%nat 50]
           (mkAll [mkUpToIndex 0%nat 100; mkUpToIndex 0%nat 50] 0%nat)
           30 7%nat fresh (or_introl eq_refl) Harity).
Defined.

(** X6: reading through a composite is reading through its first child:
    [m[index]] invokes the first child's cacher, and no other, whatever the
    other children wrap. *)
Theorem composite_getitem_first_child {St V : Type} `{Cacher St V}
    (first : modifier) (rest : list modifier) (m : modifier) (i : Z)
    (w : world St V) :
  All.new (first :: rest) = Ok m \/ Any.new (first :: rest) = Ok m ->
  cacher m = cacher first /\
  Modifier.__getitem__ m i w = Modifier.__getitem__ first i w /\
  calls (snd (Modifier.__getitem__ m i w))
  = calls w ++ [(cacher first, GetItem i)].
Proof.
  intros Hm.
  assert (Hc : cacher m = cacher first).
  { destruct Hm as [Hm | Hm];
      apply mix_init_shape in Hm as (f & r & [= <- <-] & ->); reflexivity. }
  split; [exact Hc |].
  unfold Modifier.__getitem__, getitem; rewrite Hc.
  split; [reflexivity | apply invoke_calls].
Qed.

Lemma composite_getitem_first_child_witness :
  (All.new [mkUpToIndex 3%nat 100; mkUpToIndex 5%nat 50]
   = Ok (mkAll [mkUpToIndex 3%nat 100; mkUpToIndex 5%nat 50] 3%nat) \/
   Any.new [mkUpToIndex 3%nat 100; mkUpToIndex 5%nat 50]
   = Ok (mkAll [mkUpToIndex 3%nat 100; mkUpToIndex 5%nat 50] 3%nat)) /\
  cacher (mkAll [mkUpToIndex 3%nat 100; mkUpToIndex 5%nat 50] 3%nat)
  = cacher (mkUpToIndex 3%nat 100) /\
  Modifier.__getitem__
    (mkAll [mkUpToIndex 3%nat 100; mkUpToIndex 5%nat 50] 3%nat) 30 fresh
  = Modifier.__getitem__ (mkUpToIndex 3%nat 100) 30 fresh /\
  calls (snd (Modifier.__getitem__
                (mkAll [mkUpToIndex 3%nat 100; mkUpToIndex 5%nat 50] 3%nat)
                30 fresh))
  = calls fresh ++ [(cacher (mkUpToIndex 3%nat 100), GetItem 30)].
Proof.
  split; [left; reflexivity |].
  exact (composite_getitem_first_child (mkUpToIndex 3%nat 100)
           [mkUpToIndex 5%nat 50]
           (mkAll [mkUpToIndex 3%nat 100; mkUpToIndex 5%nat 50] 3%nat)
           30 fresh (or_introl eq_refl)).
Defined.

(** ** What the proxies leave alone *)

Lemma invoke_frame {St V A : Type} (c c' : ref) (what : call V)
    (method : St -> result A * St) (w : world St V) :
  c' <> c -> heap (snd (invoke c what method w)) c' = heap w c'.
Proof.
  intros Hne; unfold invoke; destruct (method (heap w c)); cbn.
  unfold update. destruct (Nat.eqb c' c) eqn:E; [| reflexivity].
  apply Nat.eqb_eq in E; contradiction.
Qed.

(** X7: the three proxies touch no cacher but the modifier's own: the state
    of every other cacher is after the call what it was before, whatever
    [condition] answers or raises. *)
Theorem proxies_frame {St V : Type} `{Cacher St V}
    (m : modifier) (i : Z) (v : V) (w : world St V) (other : ref) :
  other <> cacher m ->
  heap (snd (Modifier.__contains__ m i w)) other = heap w other /\
  heap (snd (Modifier.__setitem__ m i v w)) other = heap w other /\
  heap (snd (Modifier.__getitem__ m i w)) other = heap w other.
Proof.
  intros Hne.
  unfold Modifier.__contains__, Modifier.__setitem__, Modifier.__getitem__,
    contains, setitem, getitem.
  destruct (condition m [i]) as [[|] | e];
    rewrite ?bind_pure_ok, ?bind_pure_raise; cbn [snd ret];
    repeat split; try reflexivity; now apply invoke_frame.
Qed.

Lemma proxies_frame_witness :
  1%nat <> cacher (mkUpToIndex 0%nat 7) /\
  heap (snd (Modifier.__contains__ (mkUpToIndex 0%nat 7) 3 fresh)) 1%nat
  = heap fresh 1%nat /\
  heap (snd (Modifier.__setitem__ (mkUpToIndex 0%nat 7) 3 42%nat fresh)) 1%nat
  = heap fresh 1%nat /\
  heap (snd (Modifier.__getitem__ (mkUpToIndex 0%nat 7) 3 fresh)) 1%nat
  = heap fresh 1%nat.
Proof.
  split; [discriminate |].
  exact (proxies_frame (mkUpToIndex 0%nat 7) 3 42%nat fresh 1%nat
           ltac:(discriminate)).
Defined.

(** X8: a proxy call invokes the cacher at most once, and only the method it
    stands for, on the modifier's own cacher and at the index it was given:
    [contains] and [set] log one call or none, [get] always exactly one. *)
Theorem proxies_call_log {St V : Type} `{Cacher St V}
    (m : modifier) (i : Z) (v : V) (w : world St V) :
  (calls (snd (Modifier.__contains__ m i w)) = calls w \/
   calls (snd (Modifier.__contains__ m i w))
   = calls w ++ [(cacher m, Contains i)]) /\
  (calls (snd (Modifier.__setitem__ m i v w)) = calls w \/
   calls (snd (Modifier.__setitem__ m i v w))
   = calls w ++ [(cacher m, SetItem i v)]) /\
  calls (snd (Modifier.__getitem__ m i w))
  = calls w ++ [(cacher m, GetItem i)] /\
  (calls (snd (Modifier.__contains__ m i w)) = calls w <->
   condition m [i] <> Ok true) /\
  (calls (snd (Modifier.__setitem__ m i v w)) = calls w <->
   condition m [i] <> Ok true).
Proof.
  assert (Hgrow : forall (l : list (ref * call V)) x, l <> l ++ [x]).
  { intros l x Heq. apply (f_equal (@List.length _)) in Heq.
    rewrite length_app in Heq; cbn in Heq; lia. }
  unfold Modifier.__contains__, Modifier.__setitem__, Modifier.__getitem__,
    contains, setitem, getitem.
  pose proof (invoke_calls (cacher m) (Contains i)
                (fun s => cacher__contains__ s i) w) as [Hc _].
  pose proof (invoke_calls (cacher m) (SetItem i v)
                (fun s => cacher__setitem__ s i v) w) as [Hs _].
  pose proof (invoke_calls (cacher m) (GetItem i)
                (fun s => cacher__getitem__ s i) w) as [Hg _].
  destruct (condition m [i]) as [[|] | e];
    rewrite ?bind_pure_ok, ?bind_pure_raise; cbn [snd ret];
    repeat split; auto; try (intros; discriminate); try congruence.
Qed.

(** X9: over a cacher that answers [True] to [contains] after a successful
    [set] of the same index, a write through the modifier followed by the
    membership test answers exactly [condition(index)]: what the modifier
    lets through is found again, what it skips is not. *)
Theorem set_then_contains_is_condition {St V : Type} `{Cacher St V}
    (m : modifier) (i : Z) (v : V) (w : world St V) (c : bool) :
  condition m [i] = Ok c ->
  (forall s : St,
      fst (cacher__setitem__ s i v) = Ok tt /\
      fst (cacher__contains__ (snd (cacher__setitem__ s i v)) i) = Ok true) ->
  fst (set_then_contains m i v w) = Ok c /\
  (c = false -> set_then_contains m i v w = (Ok false, w)).
Proof.
  intros Hc Hlaw.
  unfold set_then_contains, Modifier.__contains__, Modifier.__setitem__.
  unfold bind at 1. rewrite Hc, bind_pure_ok.
  destruct c; [| split; reflexivity].
  split; [| discriminate].
  unfold setitem, invoke at 1.
  destruct (Hlaw (heap w (cacher m))) as [Hset Hcont].
  destruct (cacher__setitem__ (heap w (cacher m)) i v) as [r s] eqn:Es.
  cbn [fst snd] in Hset, Hcont; subst r.
  rewrite bind_pure_ok. unfold contains, invoke; cbn [heap].
  unfold update; rewrite Nat.eqb_refl.
  destruct (cacher__contains__ s i); cbn [fst] in *; exact Hcont.
Qed.

Lemma set_then_contains_is_condition_witness :
  (condition (mkUpToIndex 0%nat 7) [3] = Ok true /\
   forall s : stub,
     fst (cacher__setitem__ s 3 42%nat) = Ok tt /\
     fst (cacher__contains__ (snd (cacher__setitem__ s 3 42%nat)) 3) = Ok true) /\
  fst (set_then_contains (mkUpToIndex 0%nat 7) 3 42%nat fresh) = Ok true.
Proof.
  assert (Hlaw : forall s : stub,
             fst (cacher__setitem__ s 3 42%nat) = Ok tt /\
             fst (cacher__contains__ (snd (cacher__setitem__ s 3 42%nat)) 3)
             = Ok true).
  { intros s; split; reflexivity. }
  split; [split; [reflexivity | exact Hlaw] |].
  exact (proj1 (set_then_contains_is_condition (mkUpToIndex 0%nat 7) 3 42%nat
                  fresh true eq_refl Hlaw)).
Defined.

(** ** More on the percentage modifiers *)

Lemma shr_fexp_noshift (m e : Z) (l : location) :
  fexp prec emax (Zdigits2 m + e) <= e ->
  shr_fexp prec emax m e l = (shr_record_of_loc m l, e).
Proof.
  intros Hle; unfold shr_fexp, shr.
  destruct (fexp prec emax (Zdigits2 m + e) - e) eqn:E; try reflexivity.
  exfalso; lia.
Qed.

(** A mantissa of at most 53 bits at an exponent within range is its own
    rounding. *)
Lemma binary_round_aux_canonical (s : bool) (M : positive) (E : Z) :
  Zpos M < 2 ^ 53 -> -1074 <= E <= 971 ->
  binary_round_aux prec emax s (Zpos M) E loc_Exact = S754_finite s M E.
Proof.
  intros HM HE.
  assert (Hd : Zdigits2 (Zpos M) <= 53) by (apply Zdigits2_small; lia).
  assert (Hf : fexp prec emax (Zdigits2 (Zpos M) + E) <= E).
  { rewrite fexp_binary64; lia. }
  unfold binary_round_aux.
  rewrite (shr_fexp_noshift (Zpos M) E loc_Exact Hf).
  cbn [shr_record_of_loc shr_m loc_of_shr_record round_nearest_even].
  rewrite (shr_fexp_noshift (Zpos M) E loc_Exact Hf).
  cbn [shr_record_of_loc shr_m].
  assert (Hle : (E <=? emax - prec) = true) by (apply Z.leb_le; cbn; lia).
  now rewrite Hle.
Qed.

(** [float(n)] is exact on the positive integers below [2^53]. *)
Lemma float_of_int_exact (n : Z) :
  0 < n < 2 ^ 53 ->
  exists mz ez,
    float_of_int n = Ok (S754_finite false mz ez) /\
    ez <= 0 /\ Zpos mz = n * 2 ^ (- ez) /\ Zpos mz < 2 ^ 53.
Proof.
  intros [Hpos Hlt]. destruct n as [| n | n]; try lia.
  pose proof (digits2_pos_bounds n) as [Hlo Hhi].
  set (d := Zpos (digits2_pos n)) in *.
  assert (Hd : 1 <= d <= 53).
  { split; [subst d; lia |].
    assert (H : 2 ^ (d - 1) < 2 ^ 53) by lia.
    apply Z.pow_lt_mono_r_iff in H; lia. }
  unfold float_of_int, binary_normalize, binary_round.
  fold d. rewrite Z.add_0_r, fexp_binary64.
  replace (Z.max (d - 53) (-1074)) with (d - 53) by lia.
  unfold shl_align.
  destruct (d - 53 - 0) as [| k | k] eqn:Ek; try lia.
  - rewrite binary_round_aux_canonical by lia.
    exists n, 0; repeat split; lia.
  - assert (Hk : Zpos k = 53 - d) by lia.
    assert (Hm : Zpos (Pos.iter xO n k) = Zpos n * 2 ^ Zpos k).
    { change (Pos.iter xO n k) with (shift_pos k n).
      rewrite shift_pos_correct, Z.pow_pos_fold; lia. }
    assert (Hm53 : Zpos (Pos.iter xO n k) < 2 ^ 53).
    { rewrite Hm. replace 53 with (d + Zpos k) by lia.
      rewrite Z.pow_add_r by lia.
      apply Z.mul_lt_mono_pos_r; [apply Z.pow_pos_nonneg; lia | exact Hhi]. }
    rewrite binary_round_aux_canonical by (try exact Hm53; lia).
    exists (Pos.iter xO n k), (d - 53); split; [reflexivity |].
    split; [lia |]. split; [| exact Hm53].
    rewrite Hm. f_equal. f_equal. lia.
Qed.

(** The integer part of the rounded product of [n], held exactly, by a float
    below 1 does not exceed [n]. *)
Lemma product_floor_le (n : Z) (mz mp : positive) (ez ep : Z) :
  ez <= 0 -> Zpos mz = n * 2 ^ (- ez) -> Zpos mz < 2 ^ 53 ->
  ep < 0 -> Zpos mp < 2 ^ (- ep) ->
  forall s m e,
    SFmul prec emax (S754_finite false mz ez) (S754_finite false mp ep)
    = S754_finite s m e ->
    Z.shiftl (Zpos m) e <= n.
Proof.
  intros Hez Hmz Hmz53 Hep Hmp s m e; cbn [SFmul].
  destruct (binary_round_aux_steps (xorb false false) (mz * mp) (ez + ep)
              loc_Exact)
    as (e1 & m1 & m2 & e2 & m3 & He1 & Hm1 & Hm2 & He2 & Hm3 & ->).
  destruct m3 as [| q | q]; try discriminate.
  destruct (e2 <=? 971); try discriminate.
  intros [= _ <- <-].
  set (a := - ez) in *. set (b := - ep) in *.
  assert (Ha : 0 <= a) by (subst a; lia).
  assert (Hb : 0 < b) by (subst b; lia).
  assert (Hpa : 0 < 2 ^ a) by (apply Z.pow_pos_nonneg; lia).
  assert (Hpb : 0 < 2 ^ b) by (apply Z.pow_pos_nonneg; lia).
  assert (HM : Zpos (mz * mp) < n * 2 ^ a * 2 ^ b).
  { rewrite Pos2Z.inj_mul, <- Hmz.
    apply Z.mul_lt_mono_pos_l; [lia | exact Hmp]. }
  assert (Hdig : Zpos (digits2_pos (mz * mp)) <= 53 + b).
  { change (Zpos (digits2_pos (mz * mp))) with (Zdigits2 (Zpos (mz * mp))).
    apply Zdigits2_small; [| lia].
    split; [lia |]. rewrite Z.pow_add_r, Pos2Z.inj_mul by lia.
    apply Z.mul_lt_mono_nonneg; lia. }
  assert (Hrange : ez + ep <= e1 <= 0) by lia.
  set (c := - e1) in *.
  assert (Hc : 0 <= c) by (subst c; lia).
  assert (Hpc : 0 < 2 ^ c) by (apply Z.pow_pos_nonneg; lia).
  assert (Hsplit : 2 ^ (e1 - (ez + ep)) * 2 ^ c = 2 ^ a * 2 ^ b).
  { rewrite <- !Z.pow_add_r by lia. f_equal; lia. }
  assert (Hm1' : m1 < n * 2 ^ c).
  { subst m1. apply Z.div_lt_upper_bound; [apply Z.pow_pos_nonneg; lia |].
    replace (2 ^ (e1 - (ez + ep)) * (n * 2 ^ c))
      with (n * (2 ^ (e1 - (ez + ep)) * 2 ^ c)) by ring.
    rewrite Hsplit. lia. }
  assert (Hm2' : m2 <= n * 2 ^ c) by lia.
  assert (He21 : 0 <= e2 - e1) by lia.
  assert (Hp21 : 0 < 2 ^ (e2 - e1)) by (apply Z.pow_pos_nonneg; lia).
  destruct (Z_le_gt_dec e2 0) as [Hneg | Hposi].
  - rewrite Z.shiftl_div_pow2 by exact Hneg.
    rewrite Hm3, Z.div_div by (try apply Z.pow_pos_nonneg; lia).
    rewrite <- Z.pow_add_r by lia.
    replace (e2 - e1 + - e2) with c by (subst c; lia).
    apply Z.div_le_upper_bound; [exact Hpc | lia].
  - rewrite Z.shiftl_mul_pow2 by lia.
    assert (Hp2 : 0 < 2 ^ e2) by (apply Z.pow_pos_nonneg; lia).
    assert (Hle : 2 ^ (e2 - e1) * Zpos q <= m2).
    { rewrite Hm3. apply Z.mul_div_le. exact Hp21. }
    assert (H21 : 2 ^ (e2 - e1) = 2 ^ e2 * 2 ^ c).
    { rewrite <- Z.pow_add_r by lia. f_equal; subst c; lia. }
    rewrite H21 in Hle.
    apply (Z.mul_le_mono_pos_r _ _ (2 ^ c) Hpc).
    eapply Z.le_trans; [| exact Hm2'].
    eapply Z.le_trans; [| exact Hle].
    apply Z.eq_le_incl; ring.
Qed.

Lemma binary_round_in_range (s : bool) (n : positive) :
  Zpos n < 2 ^ 1023 ->
  forall s', binary_round prec emax s n 0 <> S754_infinity s'.
Proof.
  intros Hlt s'. unfold binary_round.
  pose proof (digits2_pos_bounds n) as [Hlo Hhi].
  set (d := Zpos (digits2_pos n)) in *.
  assert (Hd : 1 <= d <= 1023).
  { split; [subst d; lia |].
    assert (H : 2 ^ (d - 1) < 2 ^ 1023) by lia.
    apply Z.pow_lt_mono_r_iff in H; lia. }
  rewrite Z.add_0_r, fexp_binary64.
  replace (Z.max (d - 53) (-1074)) with (d - 53) by lia.
  assert (Hbig : 2 ^ 1023 <= (2 ^ 53 - 1) * 2 ^ 971).
  { change (2 ^ 1023) with (2 ^ 52 * 2 ^ 971).
    apply Z.mul_le_mono_nonneg_r; [apply Z.pow_nonneg; lia | discriminate]. }
  unfold shl_align.
  destruct (d - 53 - 0) as [| k | k] eqn:Ek.
  - apply binary_round_aux_no_overflow; [lia |]. rewrite Z.sub_0_r. lia.
  - apply binary_round_aux_no_overflow; [lia |]. rewrite Z.sub_0_r. lia.
  - apply binary_round_aux_no_overflow; [lia |].
    change (Pos.iter xO n k) with (shift_pos k n).
    rewrite shift_pos_correct, Z.pow_pos_fold.
    assert (Hk : Zpos k = 53 - d) by lia.
    assert (Hm : 2 ^ Zpos k * Zpos n < 2 ^ 53).
    { replace 53 with (Zpos k + d) by lia.
      rewrite Z.pow_add_r by lia.
      apply Z.mul_lt_mono_pos_l; [apply Z.pow_pos_nonneg; lia | exact Hhi]. }
    eapply Z.lt_le_trans; [exact Hm |].
    replace (971 - (d - 53)) with (1 + (1023 - d)) by lia.
    rewrite Z.pow_add_r by lia.
    assert (0 < 2 ^ (1023 - d)) by (apply Z.pow_pos_nonneg; lia).
    rewrite pow2_53. change (2 ^ 1) with 2. nia.
Qed.

(** [float] converts every integer of magnitude below [2^1023]. *)
Lemma float_of_int_in_range (n : Z) :
  - 2 ^ 1023 < n < 2 ^ 1023 -> exists fl, float_of_int n = Ok fl.
Proof.
  intros [Hlo Hhi]. unfold float_of_int, binary_normalize.
  destruct n as [| n | n]; [eexists; reflexivity | |].
  - pose proof (binary_round_in_range false n Hhi) as Hno.
    destruct (binary_round prec emax false n 0) as [s | s | | s m e];
      try (eexists; reflexivity).
    exfalso; exact (Hno s eq_refl).
  - assert (Hn : Zpos n < 2 ^ 1023) by lia.
    pose proof (binary_round_in_range true n Hn) as Hno.
    destruct (binary_round prec emax true n 0) as [s | s | | s m e];
      try (eexists; reflexivity).
    exfalso; exact (Hno s eq_refl).
Qed.

(** Past the guard the constructor is the truncation of the product, and
    the product is a zero or a finite float of the sign of [length]. *)
Lemma percent_init_product (self : Z -> ref -> modifier) (c : ref)
    (p fl : spec_float) (length : Z) :
  valid_binary prec emax p = true ->
  strictly_between (PyFloat p) ->
  float_of_int length = Ok fl ->
  (SFmul prec emax fl p = S754_zero (length <? 0) \/
   exists m e, SFmul prec emax fl p = S754_finite (length <? 0) m e) /\
  _Percent.__init__ self c (PyFloat p) length
  = (let? t := py_int (PyFloat (SFmul prec emax fl p)) in Ok (self t c)).
Proof.
  intros Hv Hp Hfl.
  pose proof (proj2 (guard_float p Hv) Hp) as Hguard.
  apply strictly_between_float in Hp as (mp & ep & -> & Hep & Hmp).
  split.
  - exact (SFmul_below_one _ fl mp ep (float_of_int_cases length fl Hfl)
             Hep Hmp).
  - unfold _Percent.__init__; rewrite Hguard; cbn [negb].
    unfold py_mul; now rewrite Hfl.
Qed.

(** X10: the constructors of the percentage modifiers succeed on every
    binary64 [p] strictly between 0 and 1 and every [length] of magnitude
    below [2^1023]; [length] is not validated, and the threshold has its
    sign: non-negative for [length >= 0], non-positive for [length <= 0]. *)
Theorem percentage_total (c : ref) (p : spec_float) (length : Z) :
  valid_binary prec emax p = true ->
  strictly_between (PyFloat p) ->
  - 2 ^ 1023 < length < 2 ^ 1023 ->
  exists t : Z,
    UpToPercentage.new c (PyFloat p) length = Ok (mkUpToPercentage t c) /\
    FromPercentage.new c (PyFloat p) length = Ok (mkFromPercentage t c) /\
    (0 <= length -> 0 <= t) /\
    (length <= 0 -> t <= 0).
Proof.
  intros Hv Hp Hrange.
  destruct (float_of_int_in_range length Hrange) as (fl & Hfl).
  destruct (percent_init_product mkUpToPercentage c p fl length Hv Hp Hfl)
    as [Hprod Hup].
  destruct (percent_init_product mkFromPercentage c p fl length Hv Hp Hfl)
    as [_ Hfrom].
  unfold UpToPercentage.new, FromPercentage.new; rewrite Hup, Hfrom.
  destruct Hprod as [Hz | (m & e & Hf)].
  - rewrite Hz; cbn [py_int bind_result]. exists 0; repeat split; lia.
  - assert (Hnz : length <> 0).
    { intros ->. injection Hfl as <-.
      apply strictly_between_float in Hp as (mp & ep & -> & _).
      discriminate Hf. }
    rewrite Hf; cbn [py_int bind_result].
    exists (cond_Zopp (length <? 0) (Z.shiftl (Zpos m) e)).
    assert (Hs : 0 <= Z.shiftl (Zpos m) e) by (apply Z.shiftl_nonneg; lia).
    split; [reflexivity | split; [reflexivity |]].
    destruct (length <? 0) eqn:L; cbn [cond_Zopp];
      [rewrite Z.ltb_lt in L | rewrite Z.ltb_ge in L]; split; lia.
Qed.

Lemma percentage_total_witness :
  (valid_binary prec emax half = true /\
   strictly_between (PyFloat half) /\
   - 2 ^ 1023 < -3 < 2 ^ 1023) /\
  exists t : Z,
    UpToPercentage.new 0%nat (PyFloat half) (-3)
    = Ok (mkUpToPercentage t 0%nat) /\
    FromPercentage.new 0%nat (PyFloat half) (-3)
    = Ok (mkFromPercentage t 0%nat) /\
    (0 <= -3 -> 0 <= t) /\
    (-3 <= 0 -> t <= 0).
Proof.
  assert (Hb : strictly_between (PyFloat half)).
  { cbn; unfold Qlt; cbn; split; reflexivity. }
  assert (Hr : - 2 ^ 1023 < -3 < 2 ^ 1023) by (split; reflexivity).
  split; [repeat split; try reflexivity; apply Hb |].
  exact (percentage_total 0%nat half (-3) eq_refl Hb Hr).
Defined.

(** X11: for a dataset length below [2^53] the threshold stays within the
    dataset: with a binary64 [p] strictly between 0 and 1 both constructors
    succeed with a threshold between 0 and [length]; in particular
    [length = 0] gives the threshold 0. *)
Theorem percentage_threshold_within_length (c : ref) (p : spec_float)
    (length : Z) :
  valid_binary prec emax p = true ->
  strictly_between (PyFloat p) ->
  0 <= length < 2 ^ 53 ->
  exists t : Z,
    UpToPercentage.new c (PyFloat p) length = Ok (mkUpToPercentage t c) /\
    FromPercentage.new c (PyFloat p) length = Ok (mkFromPercentage t c) /\
    0 <= t <= length.
Proof.
  intros Hv Hp [Hlo Hhi].
  assert (Hfl : exists fl, float_of_int length = Ok fl /\
                  forall s m e, SFmul prec emax fl p = S754_finite s m e ->
                                Z.shiftl (Zpos m) e <= length).
  { destruct (Z.eq_dec length 0) as [-> | Hne].
    - exists (S754_zero false); split; [reflexivity |].
      intros s m e. destruct p; discriminate.
    - destruct (float_of_int_exact length ltac:(lia))
        as (mz & ez & Hfl & Hez & Hmz & Hmz53).
      exists (S754_finite false mz ez); split; [exact Hfl |].
      pose proof Hp as Hp'.
      apply strictly_between_float in Hp' as (mp & ep & -> & Hep & Hmp).
      exact (product_floor_le length mz mp ez ep Hez Hmz Hmz53 Hep Hmp). }
  destruct Hfl as (fl & Hfl & Hbound).
  destruct (percent_init_product mkUpToPercentage c p fl length Hv Hp Hfl)
    as [Hprod Hup].
  destruct (percent_init_product mkFromPercentage c p fl length Hv Hp Hfl)
    as [_ Hfrom].
  unfold UpToPercentage.new, FromPercentage.new; rewrite Hup, Hfrom.
  assert (Hsign : (length <? 0) = false) by (apply Z.ltb_ge; exact Hlo).
  rewrite Hsign in Hprod.
  destruct Hprod as [Hz | (m & e & Hf)].
  - rewrite Hz; cbn [py_int bind_result]. exists 0; repeat split; lia.
  - pose proof (Hbound false m e Hf) as Hle.
    rewrite Hf; cbn [py_int bind_result cond_Zopp].
    exists (Z.shiftl (Zpos m) e).
    assert (Hs : 0 <= Z.shiftl (Zpos m) e) by (apply Z.shiftl_nonneg; lia).
    repeat split; try reflexivity; lia.
Qed.

Lemma percentage_threshold_within_length_witness :
  (valid_binary prec emax third = true /\
   strictly_between (PyFloat third) /\
   0 <= 3 < 2 ^ 53) /\
  exists t : Z,
    UpToPercentage.new 0%nat (PyFloat third) 3
    = Ok (mkUpToPercentage t 0%nat) /\
    FromPercentage.new 0%nat (PyFloat third) 3
    = Ok (mkFromPercentage t 0%nat) /\
    0 <= t <= 3.
Proof.
  assert (Hb : strictly_between (PyFloat third)).
  { cbn; unfold Qlt; cbn; split; reflexivity. }
  assert (Hr : 0 <= 3 < 2 ^ 53) by (split; [discriminate | reflexivity]).
  split; [repeat split; try reflexivity; try apply Hb; discriminate |].
  exact (percentage_threshold_within_length 0%nat third 3 eq_refl Hb Hr).
Defined.



